(** * Products, reviews and the rating recomputation

    A shallow embedding of the request handlers of
    [app/routers/products.py] and [app/routers/reviews.py] together with
    the row type of [app/models/reviews.py].

    Tables are lists of rows in storage order.  A handler is a
    computation over the database that either returns a value or raises an
    [HTTPException]; in both cases the database it leaves behind is part of
    the result, because what has been written stays written when a later
    statement of the handler raises.

    Numbers: Python [int] and SQL [Integer] are [Z]; the rating and the
    SQL [avg] aggregate are exact rationals ([Q]). *)

From Stdlib Require Import ZArith QArith String Bool List Lia.
Import ListNotations.

Local Open Scope Z_scope.

(** ** HTTP errors *)

Module Http.

Record HTTPException : Type := mkHTTPException {
  status_code : Z;
  detail : string
}.

Definition HTTP_400_BAD_REQUEST : Z := 400.
Definition HTTP_403_FORBIDDEN : Z := 403.
Definition HTTP_404_NOT_FOUND : Z := 404.

(** The three errors the handlers raise. *)
Definition not_found (msg : string) : HTTPException :=
  mkHTTPException HTTP_404_NOT_FOUND msg.

Definition bad_request (msg : string) : HTTPException :=
  mkHTTPException HTTP_400_BAD_REQUEST msg.

Definition forbidden (msg : string) : HTTPException :=
  mkHTTPException HTTP_403_FORBIDDEN msg.

(** What a handler hands back to the framework. *)
Inductive Outcome (A : Type) : Type :=
| Returned (a : A)
| Raised (e : HTTPException).

Arguments Returned {A} a.
Arguments Raised {A} e.

Definition raised_status {A : Type} (o : Outcome A) : option Z :=
  match o with
  | Returned _ => None
  | Raised e => Some (status_code e)
  end.

Definition is_returned {A : Type} (o : Outcome A) : bool :=
  match o with
  | Returned _ => true
  | Raised _ => false
  end.

End Http.

Export Http.

(** ** Rows *)

Module Models.

(** [app/models/reviews.py], class [Review]. *)
Record Review : Type := mkReview {
  r_id : Z;
  r_user_id : Z;
  r_product_id : Z;
  r_comment : option string;
  r_comment_date : Z;
  r_grade : Z;
  r_is_active : bool
}.

(** Modelled from the spec: [app/models/products.py] is not among the
    sources.  A product has an identity, an owning seller reference, a
    category reference, an active flag, a rating and descriptive fields
    (name, price). *)
Record Product : Type := mkProduct {
  p_id : Z;
  p_name : string;
  p_price : Q;
  p_category_id : Z;
  p_seller_id : Z;
  p_is_active : bool;
  p_rating : Q
}.

(** Modelled from the spec: [app/models/categories.py] is not among the
    sources.  A category has an identity and an active flag. *)
Record Category : Type := mkCategory {
  c_id : Z;
  c_is_active : bool
}.

(** Modelled from the spec: [app/models/users.py] is not among the
    sources.  The handlers read only the identity of the caller; the role
    has been checked by the authorization dependency before the handler
    runs. *)
Record User : Type := mkUser {
  u_id : Z
}.

(** Modelled from the spec: [app/schemas.py] is not among the sources.
    The body of a review-creation request: what [model_dump] yields. *)
Record ReviewCreate : Type := mkReviewCreate {
  rc_product_id : Z;
  rc_comment : option string;
  rc_grade : Z
}.

(** Modelled from the spec: [app/schemas.py] is not among the sources.
    The body of a product creation or update request. *)
Record ProductCreate : Type := mkProductCreate {
  pc_name : string;
  pc_price : Q;
  pc_category_id : Z
}.

(** [.values(is_active=...)] on a review row. *)
Definition review_with_is_active (b : bool) (r : Review) : Review :=
  mkReview (r_id r) (r_user_id r) (r_product_id r) (r_comment r)
           (r_comment_date r) (r_grade r) b.

(** [.values(is_active=...)] on a product row. *)
Definition product_with_is_active (b : bool) (p : Product) : Product :=
  mkProduct (p_id p) (p_name p) (p_price p) (p_category_id p)
            (p_seller_id p) b (p_rating p).

(** [.values(rating=...)] on a product row. *)
Definition product_with_rating (x : Q) (p : Product) : Product :=
  mkProduct (p_id p) (p_name p) (p_price p) (p_category_id p)
            (p_seller_id p) (p_is_active p) x.

(** [.values] applied to the dumped request body, on a product row. *)
Definition product_with_dump (d : ProductCreate) (p : Product) : Product :=
  mkProduct (p_id p) (pc_name d) (pc_price d) (pc_category_id d)
            (p_seller_id p) (p_is_active p) (p_rating p).

End Models.

Export Models.

(** ** The storage layer *)

Module Sql.

(** The database: three tables, the two primary-key sequences that
    number inserted rows, and the server clock read by [func.now()]. *)
Record DB : Type := mkDB {
  products : list Product;
  reviews : list Review;
  categories : list Category;
  product_id_seq : Z;
  review_id_seq : Z;
  clock : Z
}.

Definition with_products (ps : list Product) (db : DB) : DB :=
  mkDB ps (reviews db) (categories db) (product_id_seq db)
       (review_id_seq db) (clock db).

Definition with_reviews (rs : list Review) (db : DB) : DB :=
  mkDB (products db) rs (categories db) (product_id_seq db)
       (review_id_seq db) (clock db).

(** [select(T).where(w)]: the rows satisfying [w], in storage order. *)
Definition select_where {A : Type} (w : A -> bool) (rows : list A) : list A :=
  filter w rows.

(** [.first()] and [.all()] of a scalar result. *)
Definition first {A : Type} (rows : list A) : option A := hd_error rows.
Definition all {A : Type} (rows : list A) : list A := rows.

(** [update(T).where(w).values(...)]: every row satisfying [w] is
    rewritten by [set], the others stay as they are. *)
Definition update_where {A : Type} (w : A -> bool) (set : A -> A)
    (rows : list A) : list A :=
  map (fun r => if w r then set r else r) rows.

(** The [avg] aggregate runs over the selected values keeping a running
    sum and a running count; over no value at all it is NULL. *)
Definition avg_accum (acc : Z * Z) (g : Z) : Z * Z :=
  (fst acc + g, snd acc + 1).

Definition avg_final (acc : Z * Z) : option Q :=
  if snd acc =? 0 then None else Some (Qmake (fst acc) (Z.to_pos (snd acc))).

Definition avg (values : list Z) : option Q :=
  avg_final (fold_left avg_accum values (0, 0)).

End Sql.

Export Sql.

(** ** Handlers as computations over the database *)

Module Session.

Definition M (A : Type) : Type := DB -> Outcome A * DB.

Definition ret {A : Type} (a : A) : M A := fun db => (Returned a, db).

Definition bind {A B : Type} (c : M A) (k : A -> M B) : M B :=
  fun db =>
    match c db with
    | (Returned a, db') => k a db'
    | (Raised e, db') => (Raised e, db')
    end.

(** [raise HTTPException(status_code=..., detail=...)]. *)
Definition raise {A : Type} (code : Z) (msg : string) : M A :=
  fun db => (Raised (mkHTTPException code msg), db).

(** A read-only query. *)
Definition query {A : Type} (q : DB -> A) : M A := fun db => (Returned (q db), db).

(** A statement that changes the database. *)
Definition execute (f : DB -> DB) : M unit := fun db => (Returned tt, f db).

(** Every statement above takes effect at once, so [commit] has nothing
    left to do. *)
Definition commit : M unit := ret tt.

(** [if cond: raise ...] *)
Definition raise_if (cond : bool) (code : Z) (msg : string) : M unit :=
  if cond then raise code msg else ret tt.

End Session.

Export Session.

Declare Scope session_scope.
Delimit Scope session_scope with session.

Notation "x <- c ;; k" := (bind c (fun x => k))
  (at level 61, c at next level, right associativity) : session_scope.
Notation "c ;;; k" := (bind c (fun _ => k))
  (at level 61, right associativity) : session_scope.

(** ** Python's [is None] *)

Class IsNone (A : Type) : Type := is_None : A -> bool.

(** [first()] yields a row or [None]. *)
#[export] Instance IsNone_option {A : Type} : IsNone (option A) :=
  fun o => match o with None => true | Some _ => false end.

(** [all()] yields a list object, and no list is the [None] object, the
    empty one included. *)
#[export] Instance IsNone_list {A : Type} : IsNone (list A) :=
  fun _ => false.

(** ** [app/routers/products.py] *)

Module Products.

Local Open Scope session_scope.

Definition product_is (product_id : Z) (p : Product) : bool :=
  (p_id p =? product_id) && eqb (p_is_active p) true.

Definition category_is (category_id : Z) (c : Category) : bool :=
  (c_id c =? category_id) && eqb (c_is_active c) true.

(** [db.add(db_product)] followed by [commit] and [refresh]: the row gets
    its identity from the sequence; [is_active] and [rating] take their
    column defaults. *)
Definition add_product (d : ProductCreate) (seller_id : Z) : M Product :=
  fun db =>
    let row := mkProduct (product_id_seq db) (pc_name d) (pc_price d)
                         (pc_category_id d) seller_id true 0%Q in
    (Returned row,
     mkDB (products db ++ [row]) (reviews db) (categories db)
          (product_id_seq db + 1) (review_id_seq db) (clock db)).

(** [db.refresh(product)]: the attributes are read again from the row
    that carries the object's primary key. *)
Definition refresh_product (p : Product) : M Product :=
  query (fun db =>
    match first (select_where (fun q => p_id q =? p_id p) (products db)) with
    | Some q => q
    | None => p
    end).

Definition get_all_products : M (list Product) :=
  stmt <- query (fun db =>
            select_where (fun p => eqb (p_is_active p) true) (products db)) ;;
  ret (all stmt).

Definition get_products_by_category (category_id : Z) : M (list Product) :=
  category <- query (fun db =>
                first (select_where (category_is category_id) (categories db))) ;;
  match category with
  | None => raise HTTP_400_BAD_REQUEST "Category not found or inactive!"
  | Some _ =>
      stmt <- query (fun db =>
                select_where (fun p => (p_category_id p =? category_id)
                                       && eqb (p_is_active p) true)
                             (products db)) ;;
      ret (all stmt)
  end.

Definition get_product (product_id : Z) : M Product :=
  product <- query (fun db =>
               first (select_where (product_is product_id) (products db))) ;;
  match product with
  | None => raise HTTP_404_NOT_FOUND "Product not found or inactive!"
  | Some product =>
      category <- query (fun db =>
                    first (select_where (category_is (p_category_id product))
                                        (categories db))) ;;
      match category with
      | None => raise HTTP_400_BAD_REQUEST "Category not found"
      | Some _ => ret product
      end
  end.

Definition create_product (product : ProductCreate) (current_user : User)
    : M Product :=
  db_category_id <- query (fun db =>
                      first (select_where (category_is (pc_category_id product))
                                          (categories db))) ;;
  match db_category_id with
  | None => raise HTTP_400_BAD_REQUEST "Category not found or inactive!"
  | Some _ =>
      db_product <- add_product product (u_id current_user) ;;
      ret db_product
  end.

Definition update_product (product_id : Z) (product : ProductCreate)
    (current_user : User) : M Product :=
  db_product <- query (fun db =>
                  first (select_where (product_is product_id) (products db))) ;;
  match db_product with
  | None => raise HTTP_404_NOT_FOUND "Product not found!"
  | Some db_product =>
      raise_if (negb (p_seller_id db_product =? u_id current_user))
               HTTP_403_FORBIDDEN "You can only update your own products!" ;;;
      db_category <- query (fun db =>
                       first (select_where (category_is (pc_category_id product))
                                           (categories db))) ;;
      match db_category with
      | None => raise HTTP_400_BAD_REQUEST "Category not found or inactive"
      | Some _ =>
          execute (fun db =>
            with_products
              (update_where (fun p => p_id p =? product_id)
                            (product_with_dump product) (products db)) db) ;;;
          commit ;;;
          refresh_product db_product
      end
  end.

Definition delete_product (product_id : Z) (current_user : User) : M Product :=
  product <- query (fun db =>
               first (select_where (product_is product_id) (products db))) ;;
  match product with
  | None => raise HTTP_404_NOT_FOUND "Product not found or inactive!"
  | Some product =>
      raise_if (negb (p_seller_id product =? u_id current_user))
               HTTP_403_FORBIDDEN "You can only delete your own products!" ;;;
      execute (fun db =>
        with_products
          (update_where (fun p => p_id p =? product_id)
                        (product_with_is_active false) (products db)) db) ;;;
      commit ;;;
      refresh_product product
  end.

(** The grades the aggregate of [update_product_rating] runs over. *)
Definition selected_grades (product_id : Z) (rs : list Review) : list Z :=
  map r_grade
      (select_where (fun r => (r_product_id r =? product_id)
                              && eqb (r_is_active r) true) rs).

Definition update_product_rating (product_id : Z) : M unit :=
  updated_rating <- query (fun db =>
                      avg (selected_grades product_id (reviews db))) ;;
  let updated_rating :=
    match updated_rating with
    | None => 0%Q
    | Some x => x
    end in
  execute (fun db =>
    with_products
      (update_where (fun p => p_id p =? product_id)
                    (product_with_rating updated_rating) (products db)) db) ;;;
  commit ;;;
  ret tt.

End Products.

Export Products.

(** ** [app/routers/reviews.py] *)

Module Reviews.

Local Open Scope session_scope.

Definition review_is (review_id : Z) (r : Review) : bool :=
  (r_id r =? review_id) && eqb (r_is_active r) true.

(** [db.add(db_review)] followed by [commit] and [refresh]: the row gets
    its identity from the sequence, [comment_date] from the server clock
    and [is_active] from its column default. *)
Definition add_review (d : ReviewCreate) (user_id : Z) : M Review :=
  fun db =>
    let row := mkReview (review_id_seq db) user_id (rc_product_id d)
                        (rc_comment d) (clock db) (rc_grade d) true in
    (Returned row,
     mkDB (products db) (reviews db ++ [row]) (categories db)
          (product_id_seq db) (review_id_seq db + 1) (clock db)).

Definition get_all_reviews : M (list Review) :=
  stmt <- query (fun db =>
            select_where (fun r => eqb (r_is_active r) true) (reviews db)) ;;
  ret (all stmt).

Definition get_review (review_id : Z) : M (list Review) :=
  stmt <- query (fun db => select_where (review_is review_id) (reviews db)) ;;
  let review := all stmt in
  raise_if (is_None review) HTTP_404_NOT_FOUND "Review not found!" ;;;
  ret review.

Definition create_review (review : ReviewCreate) (current_user : User)
    : M Review :=
  product <- query (fun db =>
               first (select_where (product_is (rc_product_id review))
                                   (products db))) ;;
  match product with
  | None => raise HTTP_404_NOT_FOUND "Product not found or inactive!"
  | Some product =>
      raise_if (negb ((1 <=? rc_grade review) && (rc_grade review <=? 5)))
               HTTP_400_BAD_REQUEST "Grade should be from 1 to 5!" ;;;
      db_review <- add_review review (u_id current_user) ;;
      update_product_rating (p_id product) ;;;
      ret db_review
  end.

Definition delete_review (review_id : Z) (current_user : User) : M string :=
  review <- query (fun db =>
              first (select_where (review_is review_id) (reviews db))) ;;
  match review with
  | None => raise HTTP_404_NOT_FOUND "Review not found or inactive!"
  | Some review =>
      execute (fun db =>
        with_reviews
          (update_where (fun r => r_id r =? review_id)
                        (review_with_is_active false) (reviews db)) db) ;;;
      commit ;;;
      update_product_rating (r_product_id review) ;;;
      ret "Review deleted!"%string
  end.

End Reviews.

Export Reviews.

(** ** What the specification says a rating is *)

Module Spec.

(** The reviews that count for a product: those that reference it and
    whose active flag is true. *)
Fixpoint active_reviews_of (product_id : Z) (rs : list Review) : list Review :=
  match rs with
  | [] => []
  | r :: rs' =>
      if r_is_active r then
        if Z.eq_dec (r_product_id r) product_id
        then r :: active_reviews_of product_id rs'
        else active_reviews_of product_id rs'
      else active_reviews_of product_id rs'
  end.

Fixpoint sum_grades (rs : list Review) : Z :=
  match rs with
  | [] => 0
  | r :: rs' => r_grade r + sum_grades rs'
  end.

(** The arithmetic mean of [grade] over a collection of reviews. *)
Definition mean_grade (rs : list Review) : Q :=
  (inject_Z (sum_grades rs) / inject_Z (Z.of_nat (length rs)))%Q.

(** The rating a product must show: the mean over its active reviews, and
    0.0 when it has none. *)
Definition expected_rating (product_id : Z) (rs : list Review) : Q :=
  let counted := active_reviews_of product_id rs in
  match counted with
  | [] => 0%Q
  | _ :: _ => mean_grade counted
  end.

(** Two versions of one product row that differ at most in the rating,
    which is [x] in the later one when the row is the product
    [product_id]. *)
Definition rating_written (product_id : Z) (x : Q) (p p' : Product) : Prop :=
  p_id p' = p_id p /\ p_name p' = p_name p /\ p_price p' = p_price p /\
  p_category_id p' = p_category_id p /\ p_seller_id p' = p_seller_id p /\
  p_is_active p' = p_is_active p /\
  p_rating p' = if p_id p =? product_id then x else p_rating p.

(** Two versions of one product row that differ at most in the active
    flag, which is false in the later one when the row is the product
    [product_id]. *)
Definition deactivated (product_id : Z) (p p' : Product) : Prop :=
  p_id p' = p_id p /\ p_name p' = p_name p /\ p_price p' = p_price p /\
  p_category_id p' = p_category_id p /\ p_seller_id p' = p_seller_id p /\
  p_rating p' = p_rating p /\
  p_is_active p' = if p_id p =? product_id then false else p_is_active p.

(** Every row of the product [product_id] shows the rating its reviews
    call for. *)
Definition rating_consistent (product_id : Z) (db : DB) : Prop :=
  Forall (fun p => p_id p = product_id ->
                   p_rating p = expected_rating product_id (reviews db))
         (products db).

(** [key] is a primary key of the table. *)
Definition primary_key {A : Type} (key : A -> Z) (rows : list A) : Prop :=
  NoDup (map key rows).

(** A grade outside the closed range from 1 to 5. *)
Definition grade_out_of_range (g : Z) : Prop := g < 1 \/ 5 < g.

(** No active product carries this identity: it names no product, or
    only a soft-deleted one. *)
Definition product_missing_or_inactive (product_id : Z) (db : DB) : Prop :=
  forall p, In p (products db) -> p_id p = product_id -> p_is_active p = false.

End Spec.

Export Spec.

(** ** Sample data *)

Module Sample.

Definition seller_a : User := mkUser 10.
Definition seller_b : User := mkUser 11.
Definition buyer : User := mkUser 20.
Definition admin : User := mkUser 30.

Definition kettle : Product :=
  mkProduct 1 "kettle" (1999 # 100) 1 11 true (4 # 1).

Definition retired_lamp : Product :=
  mkProduct 2 "lamp" (500 # 100) 1 11 false (5 # 1).

Definition review_3 : Review := mkReview 1 20 1 (Some "fine"%string) 100 3 true.
Definition review_5 : Review := mkReview 2 21 1 None 101 5 true.
Definition lamp_review_5 : Review := mkReview 3 20 2 None 90 5 true.
Definition lamp_review_2 : Review := mkReview 4 21 2 None 91 2 true.
Definition hidden_review : Review := mkReview 5 22 1 None 92 1 false.

Definition empty_db : DB := mkDB [] [] [] 1 1 0.

Definition shop : DB :=
  mkDB [kettle; retired_lamp]
       [review_3; review_5; lamp_review_5; lamp_review_2; hidden_review]
       [mkCategory 1 true; mkCategory 2 false]
       3 6 200.

End Sample.

(** ** What the handlers leave alone *)

Module Frames.

(** Two versions of one product row, the later one carrying the fields of
    the request body [d] when the row is the product [product_id]; the
    identity, the seller reference, the active flag and the rating are
    those of the earlier version. *)
Definition overwritten (product_id : Z) (d : ProductCreate) (p p' : Product)
    : Prop :=
  p_id p' = p_id p /\ p_seller_id p' = p_seller_id p /\
  p_is_active p' = p_is_active p /\ p_rating p' = p_rating p /\
  p_name p' = (if p_id p =? product_id then pc_name d else p_name p) /\
  p_price p' = (if p_id p =? product_id then pc_price d else p_price p) /\
  p_category_id p' =
    (if p_id p =? product_id then pc_category_id d else p_category_id p).

(** Two versions of one review row that differ at most in the active
    flag, which is false in the later one when the row is the review
    [review_id]. *)
Definition review_deactivated (review_id : Z) (r r' : Review) : Prop :=
  r_id r' = r_id r /\ r_user_id r' = r_user_id r /\
  r_product_id r' = r_product_id r /\ r_comment r' = r_comment r /\
  r_comment_date r' = r_comment_date r /\ r_grade r' = r_grade r /\
  r_is_active r' = if r_id r =? review_id then false else r_is_active r.

(** No active category carries this identity. *)
Definition category_missing_or_inactive (category_id : Z) (db : DB) : Prop :=
  forall c, In c (categories db) -> c_id c = category_id ->
            c_is_active c = false.

(** No active review carries this identity. *)
Definition review_missing_or_inactive (review_id : Z) (db : DB) : Prop :=
  forall r, In r (reviews db) -> r_id r = review_id -> r_is_active r = false.

(** Every stored grade lies in the range from 1 to 5. *)
Definition grades_in_range (db : DB) : Prop :=
  Forall (fun r => 1 <= r_grade r <= 5) (reviews db).

(** Every product shows the rating its reviews call for. *)
Definition ratings_consistent (db : DB) : Prop :=
  forall product_id, rating_consistent product_id db.

End Frames.

Export Frames.

(** ** More sample data *)

Module Annex.

Definition rated_kettle : Product :=
  mkProduct 1 "kettle" (1999 # 100) 1 11 true (8 # 2).

Definition clock_radio : Product :=
  mkProduct 3 "radio" (25 # 1) 2 10 true 0.

Definition teapot : ProductCreate := mkProductCreate "teapot" (5 # 1) 1.

Definition stray : ProductCreate := mkProductCreate "stray" (1 # 1) 2.

Definition store : DB :=
  mkDB [rated_kettle; clock_radio]
       [Sample.review_3; Sample.review_5; Sample.hidden_review]
       [mkCategory 1 true; mkCategory 2 false]
       4 6 300.

End Annex.

(** ** Properties *)

Local Open Scope session_scope.

(** Unfolds the plumbing of a handler down to its queries and tests. *)
Ltac run_session :=
  unfold bind, query, execute, commit, raise_if, raise, ret; cbn beta iota.

Section Aggregate.

(** The running sum and count of the aggregate, from any starting point. *)
Lemma fold_avg_accum (rs : list Review) (s n : Z) :
  fold_left avg_accum (map r_grade rs) (s, n) =
  (s + sum_grades rs, n + Z.of_nat (length rs)).
Proof.
  revert s n.
  induction rs as [| r rs IH]; intros s n.
  - cbn. f_equal; lia.
  - cbn [map fold_left sum_grades length]. unfold avg_accum at 2. cbn [fst snd].
    rewrite IH. f_equal; lia.
Qed.

(** The rows the query of [update_product_rating] selects are the
    reviews that count for the product. *)
Lemma select_is_active_reviews_of (product_id : Z) (rs : list Review) :
  select_where (fun r => (r_product_id r =? product_id) && eqb (r_is_active r) true) rs =
  active_reviews_of product_id rs.
Proof.
  unfold select_where.
  induction rs as [| r rs IH]; [reflexivity |].
  cbn [filter active_reviews_of]. rewrite IH.
  destruct (r_is_active r); cbn [eqb].
  - destruct (Z.eq_dec (r_product_id r) product_id) as [E | E].
    + apply Z.eqb_eq in E. rewrite E. reflexivity.
    + apply Z.eqb_neq in E. rewrite E. reflexivity.
  - rewrite andb_false_r. reflexivity.
Qed.

Lemma mean_grade_as_fraction (r : Review) (rs : list Review) :
  mean_grade (r :: rs) =
  Qmake (sum_grades (r :: rs)) (Z.to_pos (Z.of_nat (length (r :: rs)))).
Proof.
  unfold mean_grade, Qdiv, Qinv, Qmult, inject_Z.
  cbn [Qnum Qden length].
  rewrite Nat2Z.inj_succ.
  destruct (Z.succ (Z.of_nat (length rs))) as [| q | q] eqn:E; try lia.
  cbn [Qnum Qden Z.to_pos]. rewrite Z.mul_1_r. reflexivity.
Qed.

(** The aggregate over the selected grades, with NULL read as 0.0, is the
    rating the specification asks for. *)
Lemma avg_selected_grades (product_id : Z) (rs : list Review) :
  match avg (selected_grades product_id rs) with
  | None => 0%Q
  | Some x => x
  end = expected_rating product_id rs.
Proof.
  unfold selected_grades, expected_rating, avg.
  cbv zeta. rewrite select_is_active_reviews_of, fold_avg_accum.
  destruct (active_reviews_of product_id rs) as [| r counted].
  - reflexivity.
  - rewrite mean_grade_as_fraction.
    unfold avg_final. cbn [fst snd].
    rewrite !Z.add_0_l.
    destruct (Z.of_nat (length (r :: counted)) =? 0) eqn:E.
    + apply Z.eqb_eq in E. cbn [length] in E. lia.
    + reflexivity.
Qed.

(** The mean is what it should be: times the count, it gives the sum. *)
Lemma mean_grade_times_count (r : Review) (rs : list Review) :
  (mean_grade (r :: rs) * inject_Z (Z.of_nat (length (r :: rs))) ==
   inject_Z (sum_grades (r :: rs)))%Q.
Proof.
  unfold mean_grade. field.
  intro H. cbn [length] in H. rewrite Nat2Z.inj_succ in H.
  unfold Qeq, inject_Z in H. cbn in H. lia.
Qed.

End Aggregate.

Section Tables.

Context {A : Type}.

Lemma first_select_some (w : A -> bool) (rows : list A) (a : A) :
  first (select_where w rows) = Some a -> In a rows /\ w a = true.
Proof.
  unfold first, select_where. intro H.
  assert (In a (filter w rows)) as Hin.
  { destruct (filter w rows); [discriminate |].
    injection H as ->. left. reflexivity. }
  apply filter_In in Hin. exact Hin.
Qed.

Lemma first_select_none (w : A -> bool) (rows : list A) :
  (forall a, In a rows -> w a = false) -> first (select_where w rows) = None.
Proof.
  unfold first, select_where.
  induction rows as [| a rows IH]; intro H; [reflexivity |].
  cbn [filter]. rewrite (H a (or_introl eq_refl)).
  apply IH. intros b Hb. apply H. right. exact Hb.
Qed.

Lemma first_select_exists (w : A -> bool) (rows : list A) (a : A) :
  In a rows -> w a = true -> exists b, first (select_where w rows) = Some b.
Proof.
  unfold first, select_where. intros Hin Hw.
  assert (In a (filter w rows)) as H by (apply filter_In; split; assumption).
  destruct (filter w rows) as [| b l]; [contradiction |].
  exists b. reflexivity.
Qed.

(** Under a primary key, a row is found by its key. *)
Lemma first_select_by_key (key : A -> Z) (w : A -> bool) (rows : list A) (a : A) :
  primary_key key rows -> In a rows -> w a = true ->
  (forall b, w b = true -> key b = key a) ->
  first (select_where w rows) = Some a.
Proof.
  intros Hkey Hin Hw Hsame.
  destruct (first_select_exists w rows a Hin Hw) as [b Hb].
  rewrite Hb. f_equal.
  destruct (first_select_some _ _ _ Hb) as [Hbin Hbw].
  specialize (Hsame b Hbw).
  unfold primary_key in Hkey. clear Hb Hw Hbw.
  induction rows as [| c rows IH]; [contradiction |].
  cbn [map] in Hkey. inversion Hkey as [| k ks Hnotin Hrest]; subst.
  destruct Hin as [-> | Hin], Hbin as [-> | Hbin].
  - reflexivity.
  - exfalso. apply Hnotin. rewrite <- Hsame. apply in_map. exact Hbin.
  - exfalso. apply Hnotin. rewrite Hsame. apply in_map. exact Hin.
  - apply IH; assumption.
Qed.

(** An update relates each row to its later version, position by
    position. *)
Lemma update_where_Forall2 (R : A -> A -> Prop) (w : A -> bool) (set : A -> A)
    (rows : list A) :
  (forall a, R a (if w a then set a else a)) ->
  Forall2 R rows (update_where w set rows).
Proof.
  intro H. unfold update_where.
  induction rows as [| a rows IH]; cbn [map]; constructor; auto.
Qed.

Lemma update_where_twice (w : A -> bool) (set : A -> A) (rows : list A) :
  (forall a, w (set a) = w a) -> (forall a, set (set a) = set a) ->
  update_where w set (update_where w set rows) = update_where w set rows.
Proof.
  intros Hw Hset. unfold update_where. rewrite map_map.
  apply map_ext. intro a.
  destruct (w a) eqn:E.
  - rewrite Hw, E. apply Hset.
  - rewrite E. reflexivity.
Qed.

End Tables.

Section Recomputation.

Lemma product_is_true (product_id : Z) (p : Product) :
  product_is product_id p = true <-> p_id p = product_id /\ p_is_active p = true.
Proof.
  unfold product_is. rewrite andb_true_iff, Z.eqb_eq.
  destruct (p_is_active p); cbn [eqb]; tauto.
Qed.

Lemma review_is_true (review_id : Z) (r : Review) :
  review_is review_id r = true <-> r_id r = review_id /\ r_is_active r = true.
Proof.
  unfold review_is. rewrite andb_true_iff, Z.eqb_eq.
  destruct (r_is_active r); cbn [eqb]; tauto.
Qed.

(** What [update_product_rating] amounts to. *)
Lemma update_product_rating_run (product_id : Z) (db : DB) :
  update_product_rating product_id db =
  (Returned tt,
   with_products
     (update_where (fun p => p_id p =? product_id)
                   (product_with_rating (expected_rating product_id (reviews db)))
                   (products db)) db).
Proof.
  unfold update_product_rating. run_session.
  rewrite avg_selected_grades. reflexivity.
Qed.

Lemma rating_written_by_update (product_id : Z) (x : Q) (p : Product) :
  rating_written product_id x p
    (if p_id p =? product_id then product_with_rating x p else p).
Proof.
  unfold rating_written.
  destruct (p_id p =? product_id); cbn; repeat split; reflexivity.
Qed.

(** After a recomputation the product shows the rating its reviews call
    for. *)
Lemma update_product_rating_consistent (product_id : Z) (db : DB) :
  rating_consistent product_id (snd (update_product_rating product_id db)).
Proof.
  rewrite update_product_rating_run. unfold rating_consistent. cbn.
  apply Forall_forall. intros p' Hin Hid.
  unfold update_where in Hin. apply in_map_iff in Hin.
  destruct Hin as [p [<- _]].
  destruct (p_id p =? product_id) eqn:E.
  - reflexivity.
  - cbn in Hid. apply Z.eqb_neq in E. contradiction.
Qed.

End Recomputation.

(** C1. For every product id, [update_product_rating] writes into the
    rating field of that product the arithmetic mean of [grade] over the
    reviews that reference the product and are active, and exactly 0.0
    when there is no such review; the written value times the number of
    counted reviews is the sum of their grades.  Nothing else is
    touched. *)
Theorem update_product_rating_writes_mean (product_id : Z) (db : DB) :
  let x := expected_rating product_id (reviews db) in
  let db' := snd (update_product_rating product_id db) in
  fst (update_product_rating product_id db) = Returned tt /\
  Forall2 (rating_written product_id x) (products db) (products db') /\
  reviews db' = reviews db /\
  categories db' = categories db /\
  match active_reviews_of product_id (reviews db) with
  | [] => x = 0%Q
  | r :: rs =>
      (x * inject_Z (Z.of_nat (length (r :: rs))) ==
       inject_Z (sum_grades (r :: rs)))%Q
  end.
Proof.
  cbv zeta. rewrite update_product_rating_run. cbn [fst snd].
  repeat split.
  - cbn. apply update_where_Forall2. intro p. apply rating_written_by_update.
  - unfold expected_rating.
    destruct (active_reviews_of product_id (reviews db)) as [| r rs].
    + reflexivity.
    + cbv zeta. apply mean_grade_times_count.
Qed.

(** C3. The recomputation is idempotent: run a second time with the
    reviews as the first run left them, it returns and leaves the
    database, and with it the rating of the product, as the first run
    left it. *)
Theorem update_product_rating_idempotent (product_id : Z) (db : DB) :
  let db1 := snd (update_product_rating product_id db) in
  update_product_rating product_id db1 = (Returned tt, db1) /\
  map p_rating (products (snd (update_product_rating product_id db1))) =
  map p_rating (products db1).
Proof.
  cbv zeta.
  assert (update_product_rating product_id
            (snd (update_product_rating product_id db)) =
          (Returned tt, snd (update_product_rating product_id db))) as H.
  { rewrite (update_product_rating_run product_id db). cbn [snd].
    rewrite update_product_rating_run. f_equal.
    unfold with_products. cbn [products reviews categories product_id_seq
                               review_id_seq clock].
    f_equal. apply update_where_twice; reflexivity. }
  split; [exact H |]. rewrite H. reflexivity.
Qed.

Section ReviewHandlers.

(** The three ways [create_review] can go. *)
Lemma create_review_run (review : ReviewCreate) (current_user : User) (db : DB) :
  create_review review current_user db =
  match first (select_where (product_is (rc_product_id review)) (products db)) with
  | None => (Raised (not_found "Product not found or inactive!"), db)
  | Some product =>
      if (1 <=? rc_grade review) && (rc_grade review <=? 5) then
        (fst (add_review review (u_id current_user) db),
         snd (update_product_rating (p_id product)
                (snd (add_review review (u_id current_user) db))))
      else (Raised (bad_request "Grade should be from 1 to 5!"), db)
  end.
Proof.
  unfold create_review. run_session.
  destruct (first (select_where _ (products db))) as [product |];
    [| reflexivity].
  destruct ((1 <=? rc_grade review) && (rc_grade review <=? 5));
    cbn [negb]; [| reflexivity].
  unfold add_review. cbn [fst snd].
  rewrite !update_product_rating_run. reflexivity.
Qed.

(** The two ways [delete_review] can go. *)
Lemma delete_review_run (review_id : Z) (current_user : User) (db : DB) :
  delete_review review_id current_user db =
  match first (select_where (review_is review_id) (reviews db)) with
  | None => (Raised (not_found "Review not found or inactive!"), db)
  | Some review =>
      (Returned "Review deleted!"%string,
       snd (update_product_rating (r_product_id review)
              (with_reviews
                 (update_where (fun r => r_id r =? review_id)
                               (review_with_is_active false) (reviews db)) db)))
  end.
Proof.
  unfold delete_review. run_session.
  destruct (first (select_where _ (reviews db))) as [review |];
    [| reflexivity].
  rewrite update_product_rating_run. reflexivity.
Qed.

Lemma grade_test_false (g : Z) :
  grade_out_of_range g -> (1 <=? g) && (g <=? 5) = false.
Proof.
  unfold grade_out_of_range. intros [H | H].
  - apply andb_false_iff. left. apply Z.leb_gt. exact H.
  - apply andb_false_iff. right. apply Z.leb_gt. exact H.
Qed.

Lemma no_active_product (product_id : Z) (db : DB) :
  product_missing_or_inactive product_id db ->
  first (select_where (product_is product_id) (products db)) = None.
Proof.
  intros H. apply first_select_none. intros p Hin.
  destruct (product_is product_id p) eqn:E; [| reflexivity].
  apply product_is_true in E. destruct E as [Hid Hact].
  rewrite (H p Hin Hid) in Hact. discriminate.
Qed.

(** Without an active product of that identity, [create_review] raises
    404 whatever the grade, and writes nothing. *)
Lemma create_review_not_found (review : ReviewCreate) (current_user : User)
    (db : DB) :
  product_missing_or_inactive (rc_product_id review) db ->
  create_review review current_user db =
  (Raised (not_found "Product not found or inactive!"), db).
Proof.
  intro H. rewrite create_review_run, (no_active_product _ _ H).
  reflexivity.
Qed.

End ReviewHandlers.

(** C2. When a review creation returns, the database it leaves holds the
    referenced product with, in its rating field, the mean of [grade]
    over that product's active reviews, the new one among them; when a
    review soft-deletion returns, the product of the deleted review shows
    the mean over its remaining active reviews (0.0 if none remain).  The
    recomputation is a step of the handler, completed before it
    returns. *)
Theorem review_mutations_recompute_rating
    (review : ReviewCreate) (buyer : User) (review_id : Z) (admin : User)
    (db : DB) :
  (forall created db',
     create_review review buyer db = (Returned created, db') ->
     rating_consistent (rc_product_id review) db' /\
     In created (active_reviews_of (rc_product_id review) (reviews db')) /\
     exists p, In p (products db') /\ p_id p = rc_product_id review) /\
  (forall message db',
     delete_review review_id admin db = (Returned message, db') ->
     exists deleted,
       In deleted (reviews db) /\ r_id deleted = review_id /\
       r_is_active deleted = true /\
       rating_consistent (r_product_id deleted) db' /\
       Forall (fun r => r_id r <> review_id)
              (active_reviews_of (r_product_id deleted) (reviews db'))).
Proof.
  split.
  - intros created db'. rewrite create_review_run.
    destruct (first (select_where _ (products db))) as [product |] eqn:Hp;
      [| discriminate].
    destruct ((1 <=? rc_grade review) && (rc_grade review <=? 5));
      [| discriminate].
    apply first_select_some in Hp. destruct Hp as [Hin Hp].
    apply product_is_true in Hp. destruct Hp as [Hid _].
    rewrite Hid. intro H.
    pose proof (f_equal snd H) as Hdb. cbn [snd] in Hdb. subst db'.
    apply (f_equal fst) in H. unfold add_review in H. cbn [fst] in H.
    injection H as <-.
    split; [apply update_product_rating_consistent |].
    rewrite update_product_rating_run. unfold add_review.
    cbn [snd with_products products reviews].
    split.
    + rewrite <- select_is_active_reviews_of. unfold select_where.
      apply filter_In. split.
      * apply in_or_app. right. left. reflexivity.
      * cbn. rewrite Z.eqb_refl. reflexivity.
    + eexists. split.
      * unfold update_where. apply in_map. exact Hin.
      * cbv beta. destruct (p_id product =? rc_product_id review); exact Hid.
  - intros message db'. rewrite delete_review_run.
    destruct (first (select_where _ (reviews db))) as [deleted |] eqn:Hr;
      [| discriminate].
    apply first_select_some in Hr. destruct Hr as [Hin Hr].
    apply review_is_true in Hr. destruct Hr as [Hid Hact].
    intro H. apply (f_equal snd) in H. cbn [snd] in H. subst db'.
    exists deleted. repeat split; try assumption.
    + apply update_product_rating_consistent.
    + rewrite update_product_rating_run.
      cbn [snd with_products with_reviews products reviews].
      rewrite <- select_is_active_reviews_of. unfold select_where.
      apply Forall_forall. intros r Hrin.
      apply filter_In in Hrin. destruct Hrin as [Hrin Hw].
      unfold update_where in Hrin. apply in_map_iff in Hrin.
      destruct Hrin as [r0 [<- _]].
      destruct (r_id r0 =? review_id) eqn:E.
      * cbn in Hw. rewrite andb_false_r in Hw. discriminate.
      * apply Z.eqb_neq. exact E.
Qed.

(** The handlers of C2 do return: a buyer rates the kettle, and an admin
    deletes one of its reviews. *)
Lemma review_mutations_recompute_rating_witness :
  let created := mkReview 6 20 1 None 200 4 true in
  let db1 := snd (create_review (mkReviewCreate 1 None 4) Sample.buyer
                    Sample.shop) in
  let db2 := snd (delete_review 2 Sample.admin Sample.shop) in
  create_review (mkReviewCreate 1 None 4) Sample.buyer Sample.shop =
    (Returned created, db1) /\
  delete_review 2 Sample.admin Sample.shop =
    (Returned "Review deleted!"%string, db2) /\
  map p_rating (products db1) = [(12 # 3)%Q; (5 # 1)%Q] /\
  map p_rating (products db2) = [(3 # 1)%Q; (5 # 1)%Q] /\
  rating_consistent 1 db1 /\
  exists deleted, r_id deleted = 2 /\ rating_consistent (r_product_id deleted) db2.
Proof.
  cbv zeta.
  pose proof (review_mutations_recompute_rating
                (mkReviewCreate 1 None 4) Sample.buyer 2 Sample.admin
                Sample.shop) as [Hcreate Hdelete].
  split; [reflexivity |]. split; [reflexivity |].
  split; [reflexivity |]. split; [reflexivity |].
  split.
  - apply (Hcreate (mkReview 6 20 1 None 200 4 true)
                   (snd (create_review (mkReviewCreate 1 None 4) Sample.buyer
                           Sample.shop))).
    reflexivity.
  - destruct (Hdelete "Review deleted!"%string
                (snd (delete_review 2 Sample.admin Sample.shop)) eq_refl)
      as [deleted [_ [Hid [_ [Hcons _]]]]].
    exists deleted. split; assumption.
Defined.

Section ReadingReviews.

(** [get_review] has one way to go: the test on the list never fires. *)
Lemma get_review_run (review_id : Z) (db : DB) :
  get_review review_id db =
  (Returned (select_where (review_is review_id) (reviews db)), db).
Proof. reflexivity. Qed.

Lemma get_review_never_raises (review_id : Z) (db : DB) :
  raised_status (fst (get_review review_id db)) = None.
Proof. rewrite get_review_run. reflexivity. Qed.

End ReadingReviews.

(** C4. Asked for a review that does not exist (identity 1 in an empty
    database, identity 7 in the sample one) or that has been soft-deleted
    (identity 5), [get_review] does not raise 404: it returns the empty
    list. *)
Theorem get_review_absent_returns_empty :
  select_where (review_is 7) (reviews Sample.shop) = [] /\
  get_review 1 Sample.empty_db = (Returned [], Sample.empty_db) /\
  get_review 7 Sample.shop = (Returned [], Sample.shop) /\
  get_review 5 Sample.shop = (Returned [], Sample.shop) /\
  raised_status (fst (get_review 7 Sample.shop)) <> Some HTTP_404_NOT_FOUND.
Proof.
  repeat split; try reflexivity.
  rewrite get_review_never_raises. discriminate.
Qed.

(** C5. A review-creation request that references an existing active
    product and carries a grade outside the range from 1 to 5 raises 400
    and leaves the database as it was: no review row is inserted and no
    rating changes. *)
Theorem create_review_rejects_grade (review : ReviewCreate) (buyer : User)
    (db : DB) (p : Product) :
  In p (products db) -> p_id p = rc_product_id review ->
  p_is_active p = true ->
  grade_out_of_range (rc_grade review) ->
  create_review review buyer db =
    (Raised (bad_request "Grade should be from 1 to 5!"), db) /\
  raised_status (fst (create_review review buyer db)) =
    Some HTTP_400_BAD_REQUEST /\
  reviews (snd (create_review review buyer db)) = reviews db /\
  products (snd (create_review review buyer db)) = products db.
Proof.
  intros Hin Hid Hact Hgrade.
  assert (create_review review buyer db =
          (Raised (bad_request "Grade should be from 1 to 5!"), db)) as H.
  { rewrite create_review_run.
    destruct (first_select_exists (product_is (rc_product_id review))
                (products db) p Hin) as [q Hq].
    - apply product_is_true. split; assumption.
    - rewrite Hq, (grade_test_false _ Hgrade). reflexivity. }
  rewrite H. repeat split; reflexivity.
Qed.

Lemma create_review_rejects_grade_witness :
  In Sample.kettle (products Sample.shop) /\
  grade_out_of_range 6 /\
  create_review (mkReviewCreate 1 None 6) Sample.buyer Sample.shop =
    (Raised (bad_request "Grade should be from 1 to 5!"), Sample.shop).
Proof.
  assert (In Sample.kettle (products Sample.shop)) as Hin
    by (left; reflexivity).
  assert (grade_out_of_range 6) as Hgrade by (right; reflexivity).
  split; [exact Hin |]. split; [exact Hgrade |].
  apply (create_review_rejects_grade (mkReviewCreate 1 None 6) Sample.buyer
           Sample.shop Sample.kettle Hin eq_refl eq_refl Hgrade).
Defined.

(** C6. A review-creation request whose product reference names no
    product, or a product whose active flag is false, raises 404 and
    leaves the database as it was: no review row is inserted and no
    rating changes. *)
Theorem create_review_rejects_missing_product (review : ReviewCreate)
    (buyer : User) (db : DB) :
  product_missing_or_inactive (rc_product_id review) db ->
  create_review review buyer db =
    (Raised (not_found "Product not found or inactive!"), db) /\
  raised_status (fst (create_review review buyer db)) =
    Some HTTP_404_NOT_FOUND /\
  reviews (snd (create_review review buyer db)) = reviews db /\
  products (snd (create_review review buyer db)) = products db.
Proof.
  intro H. rewrite (create_review_not_found review buyer db H).
  repeat split; reflexivity.
Qed.

Lemma sample_999_missing : product_missing_or_inactive 999 Sample.shop.
Proof.
  intros p [<- | [<- | []]]; cbn; intro H; [discriminate | reflexivity].
Defined.

Lemma sample_lamp_inactive : product_missing_or_inactive 2 Sample.shop.
Proof.
  intros p [<- | [<- | []]]; cbn; intro H; [discriminate | reflexivity].
Defined.

Lemma create_review_rejects_missing_product_witness :
  product_missing_or_inactive 999 Sample.shop /\
  product_missing_or_inactive 2 Sample.shop /\
  create_review (mkReviewCreate 999 None 4) Sample.buyer Sample.shop =
    (Raised (not_found "Product not found or inactive!"), Sample.shop) /\
  create_review (mkReviewCreate 2 None 4) Sample.buyer Sample.shop =
    (Raised (not_found "Product not found or inactive!"), Sample.shop).
Proof.
  split; [exact sample_999_missing |].
  split; [exact sample_lamp_inactive |].
  split.
  - apply (create_review_rejects_missing_product (mkReviewCreate 999 None 4)
             Sample.buyer Sample.shop sample_999_missing).
  - apply (create_review_rejects_missing_product (mkReviewCreate 2 None 4)
             Sample.buyer Sample.shop sample_lamp_inactive).
Defined.

(** C9. In [create_review] the product is looked up before the grade is
    tested: a request whose product is missing or inactive and whose
    grade is out of range raises 404, not 400. *)
Theorem create_review_checks_product_first (review : ReviewCreate)
    (buyer : User) (db : DB) :
  product_missing_or_inactive (rc_product_id review) db ->
  grade_out_of_range (rc_grade review) ->
  raised_status (fst (create_review review buyer db)) =
    Some HTTP_404_NOT_FOUND /\
  raised_status (fst (create_review review buyer db)) <>
    Some HTTP_400_BAD_REQUEST /\
  snd (create_review review buyer db) = db.
Proof.
  intros H _. rewrite (create_review_not_found review buyer db H).
  repeat split. cbn. discriminate.
Qed.

Lemma create_review_checks_product_first_witness :
  product_missing_or_inactive 2 Sample.shop /\
  grade_out_of_range 0 /\
  raised_status
    (fst (create_review (mkReviewCreate 2 None 0) Sample.buyer Sample.shop)) =
    Some HTTP_404_NOT_FOUND.
Proof.
  assert (grade_out_of_range 0) as Hgrade by (left; reflexivity).
  split; [exact sample_lamp_inactive |]. split; [exact Hgrade |].
  apply (create_review_checks_product_first (mkReviewCreate 2 None 0)
           Sample.buyer Sample.shop sample_lamp_inactive Hgrade).
Defined.

Section ProductHandlers.

(** The three ways [delete_product] can go. *)
Lemma delete_product_run (product_id : Z) (current_user : User) (db : DB) :
  delete_product product_id current_user db =
  match first (select_where (product_is product_id) (products db)) with
  | None => (Raised (not_found "Product not found or inactive!"), db)
  | Some product =>
      if p_seller_id product =? u_id current_user then
        refresh_product product
          (with_products
             (update_where (fun p => p_id p =? product_id)
                           (product_with_is_active false) (products db)) db)
      else (Raised (forbidden "You can only delete your own products!"), db)
  end.
Proof.
  unfold delete_product. run_session.
  destruct (first (select_where _ (products db))) as [product |];
    [| reflexivity].
  destruct (p_seller_id product =? u_id current_user); reflexivity.
Qed.

(** The first three ways [update_product] can go. *)
Lemma update_product_guards (product_id : Z) (product : ProductCreate)
    (current_user : User) (db : DB) :
  match first (select_where (product_is product_id) (products db)) with
  | None =>
      update_product product_id product current_user db =
      (Raised (not_found "Product not found!"), db)
  | Some db_product =>
      p_seller_id db_product <> u_id current_user ->
      update_product product_id product current_user db =
      (Raised (forbidden "You can only update your own products!"), db)
  end.
Proof.
  unfold update_product. run_session.
  destruct (first (select_where _ (products db))) as [db_product |];
    [| reflexivity].
  intro H. apply Z.eqb_neq in H. rewrite H. reflexivity.
Qed.

Lemma deactivated_by_update (product_id : Z) (p : Product) :
  deactivated product_id p
    (if p_id p =? product_id then product_with_is_active false p else p).
Proof.
  unfold deactivated.
  destruct (p_id p =? product_id); cbn; repeat split; reflexivity.
Qed.

End ProductHandlers.

(** C7. A product soft-deletion that returns has set the active flag of
    that product to false and nothing else: the rating and every other
    field of the product are as before, every other product row is as
    before, and so are all reviews and categories.  It returns only for
    an active product owned by the caller. *)
Theorem delete_product_only_clears_active (product_id : Z) (seller : User)
    (db : DB) :
  is_returned (fst (delete_product product_id seller db)) = true ->
  let db' := snd (delete_product product_id seller db) in
  Forall2 (deactivated product_id) (products db) (products db') /\
  reviews db' = reviews db /\
  categories db' = categories db /\
  exists p, In p (products db) /\ p_id p = product_id /\
            p_is_active p = true /\ p_seller_id p = u_id seller.
Proof.
  rewrite delete_product_run.
  destruct (first (select_where _ (products db))) as [product |] eqn:Hp;
    [| discriminate].
  destruct (p_seller_id product =? u_id seller) eqn:Hs; [| discriminate].
  intros _. cbn [snd refresh_product query with_products products reviews
                 categories].
  repeat split.
  - apply update_where_Forall2. intro p. apply deactivated_by_update.
  - apply first_select_some in Hp. destruct Hp as [Hin Hp].
    apply product_is_true in Hp. destruct Hp as [Hid Hact].
    exists product. repeat split; try assumption.
    apply Z.eqb_eq. exact Hs.
Qed.

Lemma delete_product_only_clears_active_witness :
  is_returned (fst (delete_product 1 Sample.seller_b Sample.shop)) = true /\
  products (snd (delete_product 1 Sample.seller_b Sample.shop)) =
    [product_with_is_active false Sample.kettle; Sample.retired_lamp] /\
  Forall2 (deactivated 1) (products Sample.shop)
    (products (snd (delete_product 1 Sample.seller_b Sample.shop))).
Proof.
  split; [reflexivity |]. split; [reflexivity |].
  apply (delete_product_only_clears_active 1 Sample.seller_b Sample.shop
           eq_refl).
Defined.

(** C8. When the product exists and is active and its seller reference
    differs from the identity of the calling seller, [update_product]
    raises 403 and leaves the database as it was: no field of the product
    is changed. *)
Theorem update_product_forbidden (product_id : Z) (product : ProductCreate)
    (seller : User) (db : DB) (target : Product) :
  primary_key p_id (products db) ->
  In target (products db) -> p_id target = product_id ->
  p_is_active target = true ->
  p_seller_id target <> u_id seller ->
  update_product product_id product seller db =
    (Raised (forbidden "You can only update your own products!"), db) /\
  raised_status (fst (update_product product_id product seller db)) =
    Some HTTP_403_FORBIDDEN /\
  products (snd (update_product product_id product seller db)) = products db.
Proof.
  intros Hkey Hin Hid Hact Hseller.
  assert (update_product product_id product seller db =
          (Raised (forbidden "You can only update your own products!"), db))
    as H.
  { pose proof (update_product_guards product_id product seller db) as G.
    rewrite (first_select_by_key p_id (product_is product_id) (products db)
               target Hkey Hin) in G.
    - apply G. exact Hseller.
    - apply product_is_true. split; assumption.
    - intros b Hb. apply product_is_true in Hb. destruct Hb as [Hb _].
      rewrite Hb, Hid. reflexivity. }
  rewrite H. repeat split; reflexivity.
Qed.

Lemma sample_products_key : primary_key p_id (products Sample.shop).
Proof.
  unfold primary_key. cbn.
  repeat constructor; cbn; intuition discriminate.
Defined.

Lemma update_product_forbidden_witness :
  p_seller_id Sample.kettle <> u_id Sample.seller_a /\
  update_product 1 (mkProductCreate "teapot" (5 # 1) 1) Sample.seller_a
    Sample.shop =
    (Raised (forbidden "You can only update your own products!"),
     Sample.shop).
Proof.
  assert (p_seller_id Sample.kettle <> u_id Sample.seller_a) as Hseller
    by (cbn; discriminate).
  split; [exact Hseller |].
  apply (update_product_forbidden 1 (mkProductCreate "teapot" (5 # 1) 1)
           Sample.seller_a Sample.shop Sample.kettle sample_products_key
           (or_introl eq_refl) eq_refl eq_refl Hseller).
Defined.

(** C10. Soft-deleting an active review succeeds also when the product it
    references has been soft-deleted, and the recomputation still writes
    the new mean into the rating field of that inactive product. *)
Theorem delete_review_rewrites_inactive_product (review_id : Z) (admin : User)
    (db : DB) (review : Review) (p : Product) :
  primary_key r_id (reviews db) ->
  In review (reviews db) -> r_id review = review_id ->
  r_is_active review = true ->
  In p (products db) -> p_id p = r_product_id review ->
  p_is_active p = false ->
  let db' := snd (delete_review review_id admin db) in
  let x := expected_rating (r_product_id review) (reviews db') in
  fst (delete_review review_id admin db) = Returned "Review deleted!"%string /\
  ~ In review (active_reviews_of (r_product_id review) (reviews db')) /\
  exists p',
    In p' (products db') /\ rating_written (r_product_id review) x p p' /\
    p_is_active p' = false /\ p_rating p' = x.
Proof.
  intros Hkey Hin Hid Hact Hpin Hpid Hpact. cbv zeta.
  rewrite delete_review_run.
  rewrite (first_select_by_key r_id (review_is review_id) (reviews db)
             review Hkey Hin).
  - cbn [fst snd]. split; [reflexivity |].
    rewrite update_product_rating_run.
    cbn [with_products with_reviews products reviews].
    split.
    + rewrite <- select_is_active_reviews_of. unfold select_where.
      intro Hsel. apply filter_In in Hsel. destruct Hsel as [Hsel _].
      unfold update_where in Hsel. apply in_map_iff in Hsel.
      destruct Hsel as [r0 [Hr0 _]].
      destruct (r_id r0 =? review_id) eqn:E.
      * rewrite <- Hr0 in Hact. cbn in Hact. discriminate.
      * subst r0. apply Z.eqb_neq in E. contradiction.
    + eexists. split; [| split; [| split]].
      * unfold update_where. apply in_map. exact Hpin.
      * apply rating_written_by_update.
      * cbv beta. destruct (p_id p =? r_product_id review); exact Hpact.
      * cbv beta. apply Z.eqb_eq in Hpid. rewrite Hpid. reflexivity.
  - apply review_is_true. split; assumption.
  - intros b Hb. apply review_is_true in Hb. destruct Hb as [Hb _].
    rewrite Hb, Hid. reflexivity.
Qed.

Lemma sample_reviews_key : primary_key r_id (reviews Sample.shop).
Proof.
  unfold primary_key. cbn.
  repeat constructor; cbn; intuition discriminate.
Defined.

(** The retired lamp showed 5.0; once its five-star review is deleted it
    shows 2.0, the grade of the review that remains. *)
Lemma delete_review_rewrites_inactive_product_witness :
  p_is_active Sample.retired_lamp = false /\
  p_rating Sample.retired_lamp = (5 # 1)%Q /\
  fst (delete_review 3 Sample.admin Sample.shop) =
    Returned "Review deleted!"%string /\
  products (snd (delete_review 3 Sample.admin Sample.shop)) =
    [Sample.kettle; product_with_rating (2 # 1) Sample.retired_lamp] /\
  exists p',
    In p' (products (snd (delete_review 3 Sample.admin Sample.shop))) /\
    p_id p' = 2 /\ p_is_active p' = false /\ p_rating p' = (2 # 1)%Q.
Proof.
  split; [reflexivity |]. split; [reflexivity |].
  split; [reflexivity |]. split; [reflexivity |].
  destruct (delete_review_rewrites_inactive_product 3 Sample.admin Sample.shop
              Sample.lamp_review_5 Sample.retired_lamp sample_reviews_key
              (or_intror (or_intror (or_introl eq_refl))) eq_refl eq_refl
              (or_intror (or_introl eq_refl)) eq_refl eq_refl)
    as [_ [_ [p' [Hin [Hw [Hact Hrating]]]]]].
  exists p'. split; [exact Hin |].
  split; [exact (proj1 Hw) |]. split; [exact Hact |].
  rewrite Hrating. reflexivity.
Defined.

(** ** Further properties of the product handlers *)

Section MoreTables.

Context {A : Type}.

Lemma first_select_none_inv (w : A -> bool) (rows : list A) :
  first (select_where w rows) = None -> forall a, In a rows -> w a = false.
Proof.
  unfold first, select_where. intros H a Hin.
  destruct (w a) eqn:E; [| reflexivity].
  assert (In a (filter w rows)) as Hf by (apply filter_In; split; assumption).
  destruct (filter w rows); [contradiction | discriminate].
Qed.

Lemma select_where_In (w : A -> bool) (rows : list A) (a : A) :
  In a (select_where w rows) <-> In a rows /\ w a = true.
Proof. unfold select_where. apply filter_In. Qed.

(** An update that keeps the key of every row keeps the key column. *)
Lemma update_where_keys (key : A -> Z) (w : A -> bool) (set : A -> A)
    (rows : list A) :
  (forall a, key (set a) = key a) ->
  map key (update_where w set rows) = map key rows.
Proof.
  intro H. unfold update_where. rewrite map_map. apply map_ext.
  intro a. destruct (w a); [apply H | reflexivity].
Qed.

(** Under a primary key, the row with a given key is found again after
    an update that keeps keys, in its later version. *)
Lemma first_select_updated (key : A -> Z) (w : A -> bool) (set : A -> A)
    (rows : list A) (a : A) :
  primary_key key rows -> In a rows ->
  (forall b, key (set b) = key b) ->
  first (select_where (fun b => key b =? key a) (update_where w set rows)) =
  Some (if w a then set a else a).
Proof.
  intros Hkey Hin Hset.
  assert (key (if w a then set a else a) = key a) as Hk
    by (destruct (w a); [apply Hset | reflexivity]).
  apply (first_select_by_key key).
  - unfold primary_key. rewrite (update_where_keys key w set rows Hset).
    exact Hkey.
  - unfold update_where.
    apply (in_map (fun r => if w r then set r else r)). exact Hin.
  - apply Z.eqb_eq. exact Hk.
  - intros b Hb. apply Z.eqb_eq in Hb. rewrite Hb, Hk. reflexivity.
Qed.

End MoreTables.

Section MoreProductHandlers.

Lemma category_is_true (category_id : Z) (c : Category) :
  category_is category_id c = true <->
  c_id c = category_id /\ c_is_active c = true.
Proof.
  unfold category_is. rewrite andb_true_iff, Z.eqb_eq.
  destruct (c_is_active c); cbn [eqb]; tauto.
Qed.

Lemma no_active_category (category_id : Z) (db : DB) :
  category_missing_or_inactive category_id db <->
  first (select_where (category_is category_id) (categories db)) = None.
Proof.
  split.
  - intro H. apply first_select_none. intros c Hin.
    destruct (category_is category_id c) eqn:E; [| reflexivity].
    apply category_is_true in E. destruct E as [Hid Hact].
    rewrite (H c Hin Hid) in Hact. discriminate.
  - intros H c Hin Hid.
    pose proof (first_select_none_inv _ _ H c Hin) as E.
    destruct (c_is_active c) eqn:Hact; [| reflexivity].
    rewrite (proj2 (category_is_true category_id c) (conj Hid Hact)) in E.
    discriminate.
Qed.

Lemma some_active_category (category_id : Z) (db : DB) (c : Category) :
  first (select_where (category_is category_id) (categories db)) = Some c ->
  In c (categories db) /\ c_id c = category_id /\ c_is_active c = true.
Proof.
  intro H. apply first_select_some in H. destruct H as [Hin H].
  apply category_is_true in H. tauto.
Qed.

Lemma no_active_product_inv (product_id : Z) (db : DB) :
  first (select_where (product_is product_id) (products db)) = None ->
  product_missing_or_inactive product_id db.
Proof.
  intros H p Hin Hid.
  pose proof (first_select_none_inv _ _ H p Hin) as E.
  destruct (p_is_active p) eqn:Hact; [| reflexivity].
  rewrite (proj2 (product_is_true product_id p) (conj Hid Hact)) in E.
  discriminate.
Qed.

Lemma some_active_product (product_id : Z) (db : DB) (p : Product) :
  first (select_where (product_is product_id) (products db)) = Some p ->
  In p (products db) /\ p_id p = product_id /\ p_is_active p = true.
Proof.
  intro H. apply first_select_some in H. destruct H as [Hin H].
  apply product_is_true in H. tauto.
Qed.

(** Under the primary key, the lookup of the handlers finds the product. *)
Lemma find_product_by_key (product_id : Z) (db : DB) (target : Product) :
  primary_key p_id (products db) ->
  In target (products db) -> p_id target = product_id ->
  p_is_active target = true ->
  first (select_where (product_is product_id) (products db)) = Some target.
Proof.
  intros Hkey Hin Hid Hact.
  apply (first_select_by_key p_id); try assumption.
  - apply product_is_true. split; assumption.
  - intros b Hb. apply product_is_true in Hb. destruct Hb as [Hb _].
    rewrite Hb, Hid. reflexivity.
Qed.

(** The four ways [update_product] can go. *)
Lemma update_product_run (product_id : Z) (product : ProductCreate)
    (current_user : User) (db : DB) :
  update_product product_id product current_user db =
  match first (select_where (product_is product_id) (products db)) with
  | None => (Raised (not_found "Product not found!"), db)
  | Some db_product =>
      if p_seller_id db_product =? u_id current_user then
        match first (select_where (category_is (pc_category_id product))
                                  (categories db)) with
        | None => (Raised (bad_request "Category not found or inactive"), db)
        | Some _ =>
            refresh_product db_product
              (with_products
                 (update_where (fun p => p_id p =? product_id)
                               (product_with_dump product) (products db)) db)
        end
      else (Raised (forbidden "You can only update your own products!"), db)
  end.
Proof.
  unfold update_product. run_session.
  destruct (first (select_where _ (products db))) as [db_product |];
    [| reflexivity].
  destruct (p_seller_id db_product =? u_id current_user);
    cbn [negb]; [| reflexivity].
  destruct (first (select_where _ (categories db))); reflexivity.
Qed.

(** The two ways [create_product] can go. *)
Lemma create_product_run (product : ProductCreate) (current_user : User)
    (db : DB) :
  create_product product current_user db =
  match first (select_where (category_is (pc_category_id product))
                            (categories db)) with
  | None => (Raised (bad_request "Category not found or inactive!"), db)
  | Some _ => add_product product (u_id current_user) db
  end.
Proof.
  unfold create_product. run_session.
  destruct (first (select_where _ (categories db))); reflexivity.
Qed.

Lemma overwritten_by_update (product_id : Z) (d : ProductCreate) (p : Product) :
  overwritten product_id d p
    (if p_id p =? product_id then product_with_dump d p else p).
Proof.
  unfold overwritten.
  destruct (p_id p =? product_id); cbn; repeat split; reflexivity.
Qed.

End MoreProductHandlers.

(** X1. [get_products_by_category] never writes.  It returns exactly when
    an active category carries the identity, and then lists the active
    products of that category and no other row; otherwise it raises 400. *)
Theorem get_products_by_category_outcome (category_id : Z) (db : DB) :
  snd (get_products_by_category category_id db) = db /\
  match fst (get_products_by_category category_id db) with
  | Returned listed =>
      (exists c, In c (categories db) /\ c_id c = category_id /\
                 c_is_active c = true) /\
      forall p, In p listed <->
                In p (products db) /\ p_category_id p = category_id /\
                p_is_active p = true
  | Raised e =>
      e = bad_request "Category not found or inactive!" /\
      category_missing_or_inactive category_id db
  end.
Proof.
  unfold get_products_by_category. run_session.
  destruct (first (select_where _ (categories db))) as [c |] eqn:Hc;
    cbn [fst snd].
  - split; [reflexivity |]. split.
    + exists c. apply some_active_category. exact Hc.
    + intro p. unfold all. rewrite select_where_In, andb_true_iff, Z.eqb_eq.
      destruct (p_is_active p); cbn [eqb]; tauto.
  - split; [reflexivity |]. split; [reflexivity |].
    apply no_active_category. exact Hc.
Qed.

(** X2. [get_product] never writes.  What it returns is an active product
    of the requested identity whose category is active; it raises 404
    exactly when no active product carries the identity, and 400 when the
    product found has no active category. *)
Theorem get_product_outcome (product_id : Z) (db : DB) :
  snd (get_product product_id db) = db /\
  match fst (get_product product_id db) with
  | Returned p =>
      In p (products db) /\ p_id p = product_id /\ p_is_active p = true /\
      exists c, In c (categories db) /\ c_id c = p_category_id p /\
                c_is_active c = true
  | Raised e =>
      (e = not_found "Product not found or inactive!" /\
       product_missing_or_inactive product_id db) \/
      (e = bad_request "Category not found" /\
       exists p, In p (products db) /\ p_id p = product_id /\
                 p_is_active p = true /\
                 category_missing_or_inactive (p_category_id p) db)
  end.
Proof.
  unfold get_product. run_session.
  destruct (first (select_where _ (products db))) as [p |] eqn:Hp;
    cbn [fst snd].
  - apply some_active_product in Hp.
    destruct (first (select_where _ (categories db))) as [c |] eqn:Hc;
      cbn [fst snd]; (split; [reflexivity |]).
    + destruct Hp as [Hin [Hid Hact]]. repeat split; try assumption.
      exists c. apply some_active_category. exact Hc.
    + right. split; [reflexivity |]. exists p.
      destruct Hp as [Hin [Hid Hact]]. repeat split; try assumption.
      apply no_active_category. exact Hc.
  - split; [reflexivity |]. left. split; [reflexivity |].
    apply no_active_product_inv. exact Hp.
Qed.

(** X3. [create_product] with a category reference that names no category
    or an inactive one raises 400 and leaves the database as it was. *)
Theorem create_product_rejects_bad_category (product : ProductCreate)
    (seller : User) (db : DB) :
  category_missing_or_inactive (pc_category_id product) db ->
  create_product product seller db =
  (Raised (bad_request "Category not found or inactive!"), db).
Proof.
  intro H. rewrite create_product_run.
  rewrite (proj1 (no_active_category _ _) H). reflexivity.
Qed.

Lemma annex_category_2_inactive : category_missing_or_inactive 2 Annex.store.
Proof.
  intros c [<- | [<- | []]]; cbn; intro H; [discriminate | reflexivity].
Defined.

Lemma create_product_rejects_bad_category_witness :
  category_missing_or_inactive 2 Annex.store /\
  create_product Annex.stray Sample.seller_a Annex.store =
  (Raised (bad_request "Category not found or inactive!"), Annex.store).
Proof.
  split; [exact annex_category_2_inactive |].
  apply (create_product_rejects_bad_category Annex.stray Sample.seller_a
           Annex.store annex_category_2_inactive).
Defined.



(** X5. A product just created is found by [get_product] under the
    identity it was given, provided no stored row already carries that
    identity. *)
Theorem create_product_then_get (product : ProductCreate) (seller : User)
    (db : DB) (c : Category) :
  In c (categories db) -> c_id c = pc_category_id product ->
  c_is_active c = true ->
  (forall p, In p (products db) -> p_id p <> product_id_seq db) ->
  exists created,
    fst (create_product product seller db) = Returned created /\
    get_product (p_id created) (snd (create_product product seller db)) =
    (Returned created, snd (create_product product seller db)).
Proof.
  intros Hin Hid Hact Hfresh. rewrite create_product_run.
  assert (category_is (pc_category_id product) c = true) as Hc
    by (apply category_is_true; split; assumption).
  destruct (first_select_exists _ (categories db) c Hin Hc) as [c' Hc'].
  rewrite Hc'. unfold add_product. cbn [fst snd].
  eexists. split; [reflexivity |].
  unfold get_product. run_session. cbn [products categories p_id].
  unfold select_where at 1. rewrite filter_app.
  assert (filter (product_is (product_id_seq db)) (products db) = []) as E.
  { assert (first (select_where (product_is (product_id_seq db))
                     (products db)) = None) as N.
    { apply first_select_none. intros q Hq.
      destruct (product_is (product_id_seq db) q) eqn:F; [| reflexivity].
      apply product_is_true in F. destruct F as [F _].
      exfalso. exact (Hfresh q Hq F). }
    unfold first, select_where in N.
    destruct (filter (product_is (product_id_seq db)) (products db));
      [reflexivity | discriminate]. }
  rewrite E. cbn [app filter]. unfold product_is at 1. cbn [p_id p_is_active].
  rewrite Z.eqb_refl.
  cbn [andb eqb first hd_error p_category_id categories].
  rewrite Hc'. reflexivity.
Qed.

Lemma create_product_then_get_witness :
  exists created,
    fst (create_product Annex.teapot Sample.seller_a Annex.store) =
      Returned created /\
    get_product 4
      (snd (create_product Annex.teapot Sample.seller_a Annex.store)) =
    (Returned created,
     snd (create_product Annex.teapot Sample.seller_a Annex.store)) /\
    p_id created = 4.
Proof.
  destruct (create_product_then_get Annex.teapot Sample.seller_a Annex.store
              (mkCategory 1 true) (or_introl eq_refl) eq_refl eq_refl)
    as [created [Hret Hget]].
  - intros p [<- | [<- | []]]; cbn; discriminate.
  - exists created.
    assert (p_id created = 4) as Hid.
    { cbn in Hret. injection Hret as <-. reflexivity. }
    rewrite Hid in Hget. repeat split; assumption.
Defined.

(** X6. [update_product] on an identity that names no active product
    raises 404 and leaves the database as it was, whoever calls and
    whatever the body. *)
Theorem update_product_not_found (product_id : Z) (product : ProductCreate)
    (seller : User) (db : DB) :
  product_missing_or_inactive product_id db ->
  update_product product_id product seller db =
  (Raised (not_found "Product not found!"), db).
Proof.
  intro H. rewrite update_product_run, (no_active_product _ _ H).
  reflexivity.
Qed.

Lemma update_product_not_found_witness :
  product_missing_or_inactive 2 Sample.shop /\
  update_product 2 Annex.teapot Sample.seller_b Sample.shop =
  (Raised (not_found "Product not found!"), Sample.shop).
Proof.
  split; [exact sample_lamp_inactive |].
  apply (update_product_not_found 2 Annex.teapot Sample.seller_b Sample.shop
           sample_lamp_inactive).
Defined.

(** X7. [update_product] by the owner of an active product, with a body
    whose category reference names no category or an inactive one, raises
    400 and leaves the database as it was. *)
Theorem update_product_rejects_bad_category (product_id : Z)
    (product : ProductCreate) (seller : User) (db : DB) (target : Product) :
  primary_key p_id (products db) ->
  In target (products db) -> p_id target = product_id ->
  p_is_active target = true -> p_seller_id target = u_id seller ->
  category_missing_or_inactive (pc_category_id product) db ->
  update_product product_id product seller db =
  (Raised (bad_request "Category not found or inactive"), db).
Proof.
  intros Hkey Hin Hid Hact Hseller Hcat.
  rewrite update_product_run.
  rewrite (find_product_by_key product_id db target Hkey Hin Hid Hact).
  apply Z.eqb_eq in Hseller. rewrite Hseller.
  rewrite (proj1 (no_active_category _ _) Hcat). reflexivity.
Qed.

Lemma annex_products_key : primary_key p_id (products Annex.store).
Proof.
  unfold primary_key. cbn.
  repeat constructor; cbn; intuition discriminate.
Defined.

Lemma update_product_rejects_bad_category_witness :
  category_missing_or_inactive 2 Annex.store /\
  update_product 1 Annex.stray Sample.seller_b Annex.store =
  (Raised (bad_request "Category not found or inactive"), Annex.store).
Proof.
  split; [exact annex_category_2_inactive |].
  apply (update_product_rejects_bad_category 1 Annex.stray Sample.seller_b
           Annex.store Annex.rated_kettle annex_products_key
           (or_introl eq_refl) eq_refl eq_refl eq_refl
           annex_category_2_inactive).
Defined.

(** X8. An [update_product] that returns has overwritten the name, the
    price and the category reference of the product with those of the
    body and nothing else: identity, seller reference, active flag and
    rating are as before, every other product row is as before, and so are
    all reviews and categories.  It returns only for an active product
    owned by the caller and a body naming an active category. *)
Theorem update_product_overwrites (product_id : Z) (product : ProductCreate)
    (seller : User) (db : DB) :
  is_returned (fst (update_product product_id product seller db)) = true ->
  let db' := snd (update_product product_id product seller db) in
  Forall2 (overwritten product_id product) (products db) (products db') /\
  reviews db' = reviews db /\
  categories db' = categories db /\
  (exists p, In p (products db) /\ p_id p = product_id /\
             p_is_active p = true /\ p_seller_id p = u_id seller) /\
  (exists c, In c (categories db) /\ c_id c = pc_category_id product /\
             c_is_active c = true).
Proof.
  rewrite update_product_run.
  destruct (first (select_where _ (products db))) as [target |] eqn:Hp;
    [| discriminate].
  destruct (p_seller_id target =? u_id seller) eqn:Hs; [| discriminate].
  destruct (first (select_where _ (categories db))) as [c |] eqn:Hc;
    [| discriminate].
  intros _. cbn [snd refresh_product query with_products products reviews
                 categories].
  repeat split.
  - apply update_where_Forall2. intro p. apply overwritten_by_update.
  - apply some_active_product in Hp. destruct Hp as [Hin [Hid Hact]].
    exists target. repeat split; try assumption.
    apply Z.eqb_eq. exact Hs.
  - exists c. apply some_active_category. exact Hc.
Qed.

Lemma update_product_overwrites_witness :
  is_returned
    (fst (update_product 1 Annex.teapot Sample.seller_b Annex.store)) = true /\
  products (snd (update_product 1 Annex.teapot Sample.seller_b Annex.store)) =
    [mkProduct 1 "teapot" (5 # 1) 1 11 true (8 # 2); Annex.clock_radio] /\
  Forall2 (overwritten 1 Annex.teapot) (products Annex.store)
    (products (snd (update_product 1 Annex.teapot Sample.seller_b
                      Annex.store))).
Proof.
  split; [reflexivity |]. split; [reflexivity |].
  apply (update_product_overwrites 1 Annex.teapot Sample.seller_b Annex.store
           eq_refl).
Defined.

(** X9. Under the primary key, [update_product] by the owner with an
    active category returns the product as overwritten, and
    [delete_product] by the owner returns the product with its active
    flag false: both hand back the row as stored after the write. *)
Theorem product_writes_return_stored_row (product_id : Z)
    (product : ProductCreate) (seller : User) (db : DB) (target : Product)
    (c : Category) :
  primary_key p_id (products db) ->
  In target (products db) -> p_id target = product_id ->
  p_is_active target = true -> p_seller_id target = u_id seller ->
  In c (categories db) -> c_id c = pc_category_id product ->
  c_is_active c = true ->
  fst (update_product product_id product seller db) =
    Returned (product_with_dump product target) /\
  In (product_with_dump product target)
     (products (snd (update_product product_id product seller db))) /\
  fst (delete_product product_id seller db) =
    Returned (product_with_is_active false target) /\
  In (product_with_is_active false target)
     (products (snd (delete_product product_id seller db))).
Proof.
  intros Hkey Hin Hid Hact Hseller Hcin Hcid Hcact.
  rewrite update_product_run, delete_product_run.
  rewrite (find_product_by_key product_id db target Hkey Hin Hid Hact).
  apply Z.eqb_eq in Hseller. rewrite Hseller.
  destruct (first_select_exists (category_is (pc_category_id product))
              (categories db) c Hcin) as [c' Hc'].
  { apply category_is_true. split; assumption. }
  rewrite Hc'. unfold refresh_product, query.
  cbn [fst snd with_products products].
  rewrite !(first_select_updated p_id) by (assumption || reflexivity).
  apply Z.eqb_eq in Hid. rewrite Hid.
  repeat split.
  - unfold update_where.
    apply (in_map (fun r => if p_id r =? product_id
                            then product_with_dump product r else r)) in Hin.
    rewrite Hid in Hin. exact Hin.
  - unfold update_where.
    apply (in_map (fun r => if p_id r =? product_id
                            then product_with_is_active false r else r)) in Hin.
    rewrite Hid in Hin. exact Hin.
Qed.

Lemma product_writes_return_stored_row_witness :
  fst (update_product 1 Annex.teapot Sample.seller_b Annex.store) =
    Returned (mkProduct 1 "teapot" (5 # 1) 1 11 true (8 # 2)) /\
  fst (delete_product 1 Sample.seller_b Annex.store) =
    Returned (mkProduct 1 "kettle" (1999 # 100) 1 11 false (8 # 2)).
Proof.
  destruct (product_writes_return_stored_row 1 Annex.teapot Sample.seller_b
              Annex.store Annex.rated_kettle (mkCategory 1 true)
              annex_products_key (or_introl eq_refl) eq_refl eq_refl eq_refl
              (or_introl eq_refl) eq_refl eq_refl)
    as [Hu [_ [Hd _]]].
  split; assumption.
Defined.

(** X10. [delete_product] on an identity that names no active product
    raises 404, and on an active product owned by another seller raises
    403; in both cases the database is left as it was. *)
Theorem delete_product_guards (product_id : Z) (seller : User) (db : DB) :
  (product_missing_or_inactive product_id db ->
   delete_product product_id seller db =
   (Raised (not_found "Product not found or inactive!"), db)) /\
  (forall target,
     primary_key p_id (products db) ->
     In target (products db) -> p_id target = product_id ->
     p_is_active target = true -> p_seller_id target <> u_id seller ->
     delete_product product_id seller db =
     (Raised (forbidden "You can only delete your own products!"), db)).
Proof.
  split.
  - intro H. rewrite delete_product_run, (no_active_product _ _ H).
    reflexivity.
  - intros target Hkey Hin Hid Hact Hseller.
    rewrite delete_product_run.
    rewrite (find_product_by_key product_id db target Hkey Hin Hid Hact).
    apply Z.eqb_neq in Hseller. rewrite Hseller. reflexivity.
Qed.

Lemma delete_product_guards_witness :
  delete_product 2 Sample.seller_b Sample.shop =
    (Raised (not_found "Product not found or inactive!"), Sample.shop) /\
  delete_product 1 Sample.seller_a Sample.shop =
    (Raised (forbidden "You can only delete your own products!"),
     Sample.shop).
Proof.
  split.
  - apply (proj1 (delete_product_guards 2 Sample.seller_b Sample.shop)
             sample_lamp_inactive).
  - apply (proj2 (delete_product_guards 1 Sample.seller_a Sample.shop)
             Sample.kettle sample_products_key (or_introl eq_refl) eq_refl
             eq_refl).
    cbn. discriminate.
Defined.

Section SoftDeletedProducts.

Lemma deactivated_rows_inactive (product_id : Z) (db : DB) :
  product_missing_or_inactive product_id
    (with_products
       (update_where (fun p => p_id p =? product_id)
                     (product_with_is_active false) (products db)) db).
Proof.
  intros p' Hin Hid. cbn [with_products products] in Hin.
  unfold update_where in Hin. apply in_map_iff in Hin.
  destruct Hin as [p [<- _]].
  destruct (p_id p =? product_id) eqn:E; [reflexivity |].
  apply Z.eqb_neq in E. contradiction.
Qed.

(** Rows that keep their identity and rating, over the same reviews, keep
    the agreement between ratings and reviews. *)
Lemma rating_consistent_kept (product_id : Z) (db db' : DB) :
  reviews db' = reviews db ->
  Forall2 (fun p p' => p_id p' = p_id p /\ p_rating p' = p_rating p)
          (products db) (products db') ->
  rating_consistent product_id db -> rating_consistent product_id db'.
Proof.
  unfold rating_consistent. intros Hr Hrows. rewrite Hr.
  induction Hrows as [| p p' ps ps' [Hid Hrat] _ IH]; intro H.
  - constructor.
  - inversion H as [| ? ? Hp Hps]; subst. constructor.
    + rewrite Hid, Hrat. exact Hp.
    + apply IH. exact Hps.
Qed.

Lemma Forall2_same_rows (ps : list Product) :
  Forall2 (fun p p' => p_id p' = p_id p /\ p_rating p' = p_rating p) ps ps.
Proof. induction ps; constructor; auto. Qed.

End SoftDeletedProducts.

(** X11. Once [delete_product] has returned, the product is gone for
    every reader and writer: [get_product] raises 404, [get_all_products]
    no longer lists it while it still lists every other active product,
    a second [delete_product] and any [update_product] raise 404, and
    [create_review] for it raises 404 and writes nothing. *)
Theorem deleted_product_is_gone (product_id : Z) (seller : User) (db : DB) :
  is_returned (fst (delete_product product_id seller db)) = true ->
  let db' := snd (delete_product product_id seller db) in
  get_product product_id db' =
    (Raised (not_found "Product not found or inactive!"), db') /\
  (exists listed,
     get_all_products db' = (Returned listed, db') /\
     Forall (fun p => p_id p <> product_id) listed /\
     forall p, In p (products db) -> p_is_active p = true ->
               p_id p <> product_id -> In p listed) /\
  (forall anyone,
     delete_product product_id anyone db' =
     (Raised (not_found "Product not found or inactive!"), db')) /\
  (forall anyone body,
     update_product product_id body anyone db' =
     (Raised (not_found "Product not found!"), db')) /\
  (forall review buyer,
     rc_product_id review = product_id ->
     create_review review buyer db' =
     (Raised (not_found "Product not found or inactive!"), db')).
Proof.
  rewrite delete_product_run.
  destruct (first (select_where _ (products db))) as [product |];
    [| discriminate].
  destruct (p_seller_id product =? u_id seller); [| discriminate].
  intros _. cbn [snd refresh_product query].
  pose proof (deactivated_rows_inactive product_id db) as Hgone.
  remember (with_products _ db) as db' eqn:Hdb'.
  split; [| split; [| split; [| split]]].
  - unfold get_product. run_session.
    rewrite (no_active_product _ _ Hgone). reflexivity.
  - eexists. split; [reflexivity |]. unfold all. split.
    + apply Forall_forall. intros p Hp. apply select_where_In in Hp.
      destruct Hp as [Hin Hact]. intro Hid.
      rewrite (Hgone p Hin Hid) in Hact. discriminate.
    + intros p Hin Hact Hid. apply select_where_In.
      rewrite Hact. split; [| reflexivity].
      subst db'. cbn [with_products products]. unfold update_where.
      apply (in_map (fun r => if p_id r =? product_id
                              then product_with_is_active false r else r))
        in Hin.
      apply Z.eqb_neq in Hid. rewrite Hid in Hin. exact Hin.
  - intro anyone. rewrite delete_product_run, (no_active_product _ _ Hgone).
    reflexivity.
  - intros anyone body.
    rewrite update_product_run, (no_active_product _ _ Hgone). reflexivity.
  - intros review buyer Hid. apply create_review_not_found.
    rewrite Hid. exact Hgone.
Qed.

Lemma deleted_product_is_gone_witness :
  is_returned (fst (delete_product 1 Sample.seller_b Annex.store)) = true /\
  get_product 1 (snd (delete_product 1 Sample.seller_b Annex.store)) =
    (Raised (not_found "Product not found or inactive!"),
     snd (delete_product 1 Sample.seller_b Annex.store)) /\
  fst (get_all_products (snd (delete_product 1 Sample.seller_b Annex.store))) =
    Returned [Annex.clock_radio].
Proof.
  split; [reflexivity |].
  split; [| reflexivity].
  apply (deleted_product_is_gone 1 Sample.seller_b Annex.store eq_refl).
Defined.

(** X12. Neither [update_product] nor [delete_product] touches a rating
    or a review, whatever their outcome: the rating column and the
    reviews are as before, so a product whose rating agreed with its
    reviews still agrees. *)
Theorem product_writes_keep_ratings (product_id : Z) (product : ProductCreate)
    (seller : User) (db : DB) :
  let db1 := snd (update_product product_id product seller db) in
  let db2 := snd (delete_product product_id seller db) in
  map p_rating (products db1) = map p_rating (products db) /\
  reviews db1 = reviews db /\
  map p_rating (products db2) = map p_rating (products db) /\
  reviews db2 = reviews db /\
  forall any_id,
    rating_consistent any_id db ->
    rating_consistent any_id db1 /\ rating_consistent any_id db2.
Proof.
  cbv zeta.
  assert (reviews (snd (update_product product_id product seller db)) =
            reviews db /\
          Forall2 (fun p p' => p_id p' = p_id p /\ p_rating p' = p_rating p)
            (products db)
            (products (snd (update_product product_id product seller db))))
    as [Hr1 Hp1].
  { rewrite update_product_run.
    destruct (first (select_where _ (products db))) as [target |];
      [| split; [reflexivity | apply Forall2_same_rows]].
    destruct (p_seller_id target =? u_id seller);
      [| split; [reflexivity | apply Forall2_same_rows]].
    destruct (first (select_where _ (categories db)));
      [| split; [reflexivity | apply Forall2_same_rows]].
    cbn [snd refresh_product query with_products products reviews].
    split; [reflexivity |].
    apply update_where_Forall2. intro p.
    destruct (p_id p =? product_id); split; reflexivity. }
  assert (reviews (snd (delete_product product_id seller db)) = reviews db /\
          Forall2 (fun p p' => p_id p' = p_id p /\ p_rating p' = p_rating p)
            (products db)
            (products (snd (delete_product product_id seller db))))
    as [Hr2 Hp2].
  { rewrite delete_product_run.
    destruct (first (select_where _ (products db))) as [target |];
      [| split; [reflexivity | apply Forall2_same_rows]].
    destruct (p_seller_id target =? u_id seller);
      [| split; [reflexivity | apply Forall2_same_rows]].
    cbn [snd refresh_product query with_products products reviews].
    split; [reflexivity |].
    apply update_where_Forall2. intro p.
    destruct (p_id p =? product_id); split; reflexivity. }
  assert (forall ps ps',
            Forall2 (fun p p' : Product =>
                       p_id p' = p_id p /\ p_rating p' = p_rating p) ps ps' ->
            map p_rating ps' = map p_rating ps) as Hcol.
  { intros ps ps' H. induction H as [| p p' l l' [_ Hrat] _ IH];
      [reflexivity |].
    cbn [map]. rewrite Hrat, IH. reflexivity. }
  split; [apply Hcol; exact Hp1 |]. split; [exact Hr1 |].
  split; [apply Hcol; exact Hp2 |]. split; [exact Hr2 |].
  intros any_id Hcons. split.
  - exact (rating_consistent_kept any_id db _ Hr1 Hp1 Hcons).
  - exact (rating_consistent_kept any_id db _ Hr2 Hp2 Hcons).
Qed.

Lemma annex_kettle_consistent : rating_consistent 1 Annex.store.
Proof.
  unfold rating_consistent. cbn [products Annex.store].
  apply Forall_cons; [intros _; reflexivity |].
  apply Forall_cons; [cbn; discriminate | apply Forall_nil].
Defined.

Lemma product_writes_keep_ratings_witness :
  rating_consistent 1 Annex.store /\
  rating_consistent 1
    (snd (update_product 1 Annex.teapot Sample.seller_b Annex.store)) /\
  rating_consistent 1 (snd (delete_product 1 Sample.seller_b Annex.store)).
Proof.
  split; [exact annex_kettle_consistent |].
  destruct (product_writes_keep_ratings 1 Annex.teapot Sample.seller_b
              Annex.store) as [_ [_ [_ [_ H]]]].
  exact (H 1 annex_kettle_consistent).
Defined.

(** ** Further properties of the review handlers *)

Section MoreReviewHandlers.

Lemma no_active_review (review_id : Z) (db : DB) :
  review_missing_or_inactive review_id db ->
  first (select_where (review_is review_id) (reviews db)) = None.
Proof.
  intros H. apply first_select_none. intros r Hin.
  destruct (review_is review_id r) eqn:E; [| reflexivity].
  apply review_is_true in E. destruct E as [Hid Hact].
  rewrite (H r Hin Hid) in Hact. discriminate.
Qed.

Lemma select_none_of_first_none {A : Type} (w : A -> bool) (rows : list A) :
  first (select_where w rows) = None -> select_where w rows = [].
Proof.
  unfold first. destruct (select_where w rows); [reflexivity | discriminate].
Qed.

Lemma deactivated_reviews_inactive (review_id : Z) (rs : list Review) :
  forall r, In r (update_where (fun r => r_id r =? review_id)
                               (review_with_is_active false) rs) ->
            r_id r = review_id -> r_is_active r = false.
Proof.
  intros r' Hin Hid. unfold update_where in Hin. apply in_map_iff in Hin.
  destruct Hin as [r [<- _]].
  destruct (r_id r =? review_id) eqn:E; [reflexivity |].
  apply Z.eqb_neq in E. contradiction.
Qed.

Lemma review_deactivated_by_update (review_id : Z) (r : Review) :
  review_deactivated review_id r
    (if r_id r =? review_id then review_with_is_active false r else r).
Proof.
  unfold review_deactivated.
  destruct (r_id r =? review_id); cbn; repeat split; reflexivity.
Qed.

(** Under a primary key, equal keys mean the same row. *)
Lemma primary_key_inj {A : Type} (key : A -> Z) (rows : list A) (a b : A) :
  primary_key key rows -> In a rows -> In b rows -> key a = key b -> a = b.
Proof.
  unfold primary_key. intros Hkey.
  induction rows as [| c rows IH]; [contradiction |].
  cbn [map] in Hkey. inversion Hkey as [| k ks Hnotin Hrest]; subst.
  intros [-> | Ha] [-> | Hb] Hk.
  - reflexivity.
  - exfalso. apply Hnotin. rewrite Hk. apply in_map. exact Hb.
  - exfalso. apply Hnotin. rewrite <- Hk. apply in_map. exact Ha.
  - apply IH; assumption.
Qed.

(** Under a primary key, a selection by key yields the row alone. *)
Lemma select_by_key_single {A : Type} (key : A -> Z) (w : A -> bool)
    (rows : list A) (a : A) :
  primary_key key rows -> In a rows -> w a = true ->
  (forall b, w b = true -> key b = key a) ->
  select_where w rows = [a].
Proof.
  intros Hkey Hin Hw Hsame.
  assert (forall b, In b (select_where w rows) -> b = a) as Hall.
  { intros b Hb. apply select_where_In in Hb. destruct Hb as [Hb Hwb].
    apply (primary_key_inj key rows); auto. }
  assert (NoDup (select_where w rows)) as Hnd.
  { unfold select_where. apply NoDup_filter.
    unfold primary_key in Hkey. apply NoDup_map_inv in Hkey. exact Hkey. }
  assert (In a (select_where w rows)) as Ha
    by (apply select_where_In; split; assumption).
  destruct (select_where w rows) as [| b l]; [contradiction |].
  assert (b = a) as -> by (apply Hall; left; reflexivity).
  destruct l as [| c l]; [reflexivity |].
  assert (c = a) as -> by (apply Hall; right; left; reflexivity).
  inversion Hnd as [| ? ? Hnotin _]; subst.
  exfalso. apply Hnotin. left. reflexivity.
Qed.

Lemma active_reviews_of_app (product_id : Z) (rs rs' : list Review) :
  active_reviews_of product_id (rs ++ rs') =
  active_reviews_of product_id rs ++ active_reviews_of product_id rs'.
Proof.
  rewrite <- !select_is_active_reviews_of. unfold select_where.
  apply filter_app.
Qed.

Lemma active_reviews_of_In (product_id : Z) (rs : list Review) (r : Review) :
  In r (active_reviews_of product_id rs) <->
  In r rs /\ r_product_id r = product_id /\ r_is_active r = true.
Proof.
  rewrite <- select_is_active_reviews_of, select_where_In.
  rewrite andb_true_iff, Z.eqb_eq.
  destruct (r_is_active r); cbn [eqb]; tauto.
Qed.

(** Deactivating rows that do not count for a product leaves the reviews
    that count for it as they were. *)
Lemma active_reviews_of_deactivate_other (product_id review_id : Z)
    (rs : list Review) :
  (forall r, In r rs -> r_id r = review_id -> r_is_active r = true ->
             r_product_id r <> product_id) ->
  active_reviews_of product_id
    (update_where (fun r => r_id r =? review_id)
                  (review_with_is_active false) rs) =
  active_reviews_of product_id rs.
Proof.
  induction rs as [| r rs IH]; intro H; [reflexivity |].
  cbn [update_where map active_reviews_of].
  change (map (fun r0 => if r_id r0 =? review_id
                         then review_with_is_active false r0 else r0) rs)
    with (update_where (fun r0 => r_id r0 =? review_id)
                       (review_with_is_active false) rs).
  rewrite IH by (intros r0 Hr0; apply H; right; exact Hr0).
  destruct (r_id r =? review_id) eqn:E; [| reflexivity].
  apply Z.eqb_eq in E. cbn [review_with_is_active r_is_active].
  destruct (r_is_active r) eqn:Hact; [| reflexivity].
  destruct (Z.eq_dec (r_product_id r) product_id) as [Hp | Hp];
    [| reflexivity].
  exfalso. exact (H r (or_introl eq_refl) E Hact Hp).
Qed.

End MoreReviewHandlers.

(** X13. [delete_review] on an identity that names no review, or only a
    soft-deleted one, raises 404 and leaves the database as it was: no
    rating is recomputed. *)
Theorem delete_review_not_found (review_id : Z) (admin : User) (db : DB) :
  review_missing_or_inactive review_id db ->
  delete_review review_id admin db =
  (Raised (not_found "Review not found or inactive!"), db).
Proof.
  intro H. rewrite delete_review_run, (no_active_review _ _ H).
  reflexivity.
Qed.

Lemma sample_review_5_inactive : review_missing_or_inactive 5 Sample.shop.
Proof.
  intros r [<- | [<- | [<- | [<- | [<- | []]]]]]; cbn; intro H;
    try discriminate; reflexivity.
Defined.

Lemma delete_review_not_found_witness :
  review_missing_or_inactive 5 Sample.shop /\
  delete_review 5 Sample.admin Sample.shop =
  (Raised (not_found "Review not found or inactive!"), Sample.shop).
Proof.
  split; [exact sample_review_5_inactive |].
  apply (delete_review_not_found 5 Sample.admin Sample.shop
           sample_review_5_inactive).
Defined.

(** X14. Once [delete_review] has returned, the review is gone for every
    reader and writer: [get_review] returns the empty list,
    [get_all_reviews] no longer lists it while it still lists every other
    active review, and a second [delete_review] raises 404 and writes
    nothing. *)
Theorem deleted_review_is_gone (review_id : Z) (admin : User) (db : DB) :
  is_returned (fst (delete_review review_id admin db)) = true ->
  let db' := snd (delete_review review_id admin db) in
  get_review review_id db' = (Returned [], db') /\
  (exists listed,
     get_all_reviews db' = (Returned listed, db') /\
     Forall (fun r => r_id r <> review_id) listed /\
     forall r, In r (reviews db) -> r_is_active r = true ->
               r_id r <> review_id -> In r listed) /\
  (forall anyone,
     delete_review review_id anyone db' =
     (Raised (not_found "Review not found or inactive!"), db')).
Proof.
  rewrite delete_review_run.
  destruct (first (select_where _ (reviews db))) as [deleted |];
    [| discriminate].
  intros _. cbn [snd]. rewrite update_product_rating_run. cbn [snd].
  remember (with_products _ _) as db' eqn:Hdb'.
  assert (reviews db' =
          update_where (fun r => r_id r =? review_id)
                       (review_with_is_active false) (reviews db)) as Hrs
    by (subst db'; reflexivity).
  assert (review_missing_or_inactive review_id db') as Hgone.
  { intros r Hin Hid. rewrite Hrs in Hin.
    exact (deactivated_reviews_inactive review_id (reviews db) r Hin Hid). }
  split; [| split].
  - rewrite get_review_run.
    rewrite (select_none_of_first_none _ _ (no_active_review _ _ Hgone)).
    reflexivity.
  - eexists. split; [reflexivity |]. unfold all. split.
    + apply Forall_forall. intros r Hr. apply select_where_In in Hr.
      destruct Hr as [Hin Hact]. intro Hid.
      rewrite (Hgone r Hin Hid) in Hact. discriminate.
    + intros r Hin Hact Hid. apply select_where_In.
      rewrite Hact. split; [| reflexivity].
      rewrite Hrs. unfold update_where.
      apply (in_map (fun r0 => if r_id r0 =? review_id
                               then review_with_is_active false r0 else r0))
        in Hin.
      apply Z.eqb_neq in Hid. rewrite Hid in Hin. exact Hin.
  - intro anyone. apply delete_review_not_found. exact Hgone.
Qed.

Lemma deleted_review_is_gone_witness :
  is_returned (fst (delete_review 2 Sample.admin Annex.store)) = true /\
  get_review 2 (snd (delete_review 2 Sample.admin Annex.store)) =
    (Returned [], snd (delete_review 2 Sample.admin Annex.store)) /\
  fst (get_all_reviews (snd (delete_review 2 Sample.admin Annex.store))) =
    Returned [Sample.review_3].
Proof.
  split; [reflexivity |]. split; [| reflexivity].
  apply (deleted_review_is_gone 2 Sample.admin Annex.store eq_refl).
Defined.

(** X15. A [delete_review] that returns removes no row and rewrites no
    field of a review but the active flag of the deleted one; of the
    products it changes only the rating of the product the deleted review
    referenced; categories are untouched. *)
Theorem delete_review_frame (review_id : Z) (admin : User) (db : DB) :
  is_returned (fst (delete_review review_id admin db)) = true ->
  let db' := snd (delete_review review_id admin db) in
  Forall2 (review_deactivated review_id) (reviews db) (reviews db') /\
  categories db' = categories db /\
  exists deleted,
    In deleted (reviews db) /\ r_id deleted = review_id /\
    r_is_active deleted = true /\
    Forall2 (rating_written (r_product_id deleted)
               (expected_rating (r_product_id deleted) (reviews db')))
            (products db) (products db').
Proof.
  rewrite delete_review_run.
  destruct (first (select_where _ (reviews db))) as [deleted |] eqn:Hr;
    [| discriminate].
  intros _. cbn [snd]. rewrite update_product_rating_run.
  cbn [snd with_products with_reviews products reviews categories].
  split; [| split; [reflexivity |]].
  - apply update_where_Forall2. intro r. apply review_deactivated_by_update.
  - apply first_select_some in Hr. destruct Hr as [Hin Hr].
    apply review_is_true in Hr. destruct Hr as [Hid Hact].
    exists deleted. repeat split; try assumption.
    apply update_where_Forall2. intro p. apply rating_written_by_update.
Qed.

Lemma delete_review_frame_witness :
  is_returned (fst (delete_review 2 Sample.admin Annex.store)) = true /\
  Forall2 (review_deactivated 2) (reviews Annex.store)
    (reviews (snd (delete_review 2 Sample.admin Annex.store))) /\
  map p_rating (products (snd (delete_review 2 Sample.admin Annex.store))) =
    [(3 # 1)%Q; 0%Q].
Proof.
  split; [reflexivity |]. split; [| reflexivity].
  apply (delete_review_frame 2 Sample.admin Annex.store eq_refl).
Defined.

(** X16. [create_review] for an active product with a grade from 1 to 5
    returns a new active row that carries the caller, the product, the
    grade and the comment of the request and the time of the server
    clock.  The row is appended to the reviews, whose existing rows stay
    as they are; of the products only the rating of the referenced one
    changes; and [get_all_reviews] then lists the new review. *)
Theorem create_review_appends_row (review : ReviewCreate) (buyer : User)
    (db : DB) (p : Product) :
  In p (products db) -> p_id p = rc_product_id review ->
  p_is_active p = true -> 1 <= rc_grade review <= 5 ->
  let db' := snd (create_review review buyer db) in
  exists created,
    fst (create_review review buyer db) = Returned created /\
    reviews db' = reviews db ++ [created] /\
    r_user_id created = u_id buyer /\
    r_product_id created = rc_product_id review /\
    r_grade created = rc_grade review /\
    r_comment created = rc_comment review /\
    r_comment_date created = clock db /\ r_is_active created = true /\
    Forall2 (rating_written (rc_product_id review)
               (expected_rating (rc_product_id review) (reviews db')))
            (products db) (products db') /\
    categories db' = categories db /\
    exists listed,
      get_all_reviews db' = (Returned listed, db') /\ In created listed.
Proof.
  intros Hin Hid Hact [Hlo Hhi]. cbv zeta. rewrite create_review_run.
  destruct (first_select_exists (product_is (rc_product_id review))
              (products db) p Hin) as [q Hq].
  { apply product_is_true. split; assumption. }
  rewrite Hq. apply some_active_product in Hq. destruct Hq as [_ [Hqid _]].
  apply Z.leb_le in Hlo, Hhi. rewrite Hlo, Hhi. cbn [andb].
  rewrite update_product_rating_run, Hqid. unfold add_review.
  cbn [fst snd with_products products reviews categories].
  eexists. repeat split.
  - apply update_where_Forall2. intro p0. apply rating_written_by_update.
  - eexists. split; [reflexivity |]. unfold all. apply select_where_In.
    cbn [with_products reviews]. split; [| reflexivity].
    apply in_or_app. right. left. reflexivity.
Qed.

Lemma create_review_appends_row_witness :
  exists created,
    fst (create_review (mkReviewCreate 1 None 4) Sample.buyer Annex.store) =
      Returned created /\
    reviews (snd (create_review (mkReviewCreate 1 None 4) Sample.buyer
                    Annex.store)) =
      reviews Annex.store ++ [created] /\
    r_grade created = 4.
Proof.
  destruct (create_review_appends_row (mkReviewCreate 1 None 4) Sample.buyer
              Annex.store Annex.rated_kettle (or_introl eq_refl) eq_refl
              eq_refl)
    as [created [Hret [Hrows [_ [_ [Hgrade _]]]]]].
  - cbn. lia.
  - exists created. repeat split; assumption.
Defined.

(** X17. Under the primary key, [get_review] on the identity of an active
    review returns the list that holds this review and nothing else, and
    writes nothing. *)
Theorem get_review_finds_active (db : DB) (r : Review) :
  primary_key r_id (reviews db) ->
  In r (reviews db) -> r_is_active r = true ->
  get_review (r_id r) db = (Returned [r], db).
Proof.
  intros Hkey Hin Hact. rewrite get_review_run.
  rewrite (select_by_key_single r_id (review_is (r_id r)) (reviews db) r);
    try assumption; [reflexivity | |].
  - apply review_is_true. split; [reflexivity | exact Hact].
  - intros b Hb. apply review_is_true in Hb. tauto.
Qed.

Lemma get_review_finds_active_witness :
  get_review 2 Sample.shop = (Returned [Sample.review_5], Sample.shop).
Proof.
  apply (get_review_finds_active Sample.shop Sample.review_5
           sample_reviews_key (or_intror (or_introl eq_refl)) eq_refl).
Defined.

(** ** Further properties of the recomputation *)

Section Bounds.

Lemma sum_grades_bounds (rs : list Review) :
  Forall (fun r => 1 <= r_grade r <= 5) rs ->
  Z.of_nat (length rs) <= sum_grades rs <= 5 * Z.of_nat (length rs).
Proof.
  induction 1 as [| r rs Hr _ IH].
  - cbn. lia.
  - cbn [sum_grades length]. rewrite Nat2Z.inj_succ. lia.
Qed.

Lemma active_reviews_of_Forall (P : Review -> Prop) (product_id : Z)
    (rs : list Review) :
  Forall P rs -> Forall P (active_reviews_of product_id rs).
Proof.
  intro H. apply Forall_forall. intros r Hr.
  apply active_reviews_of_In in Hr. destruct Hr as [Hin _].
  rewrite Forall_forall in H. apply H. exact Hin.
Qed.

(** With grades from 1 to 5 the expected rating is 0.0 for a product
    without active reviews and lies between 1 and 5 otherwise. *)
Lemma expected_rating_bounds (product_id : Z) (rs : list Review) :
  Forall (fun r => 1 <= r_grade r <= 5) rs ->
  match active_reviews_of product_id rs with
  | [] => expected_rating product_id rs = 0%Q
  | _ :: _ =>
      (1 <= expected_rating product_id rs /\
       expected_rating product_id rs <= 5)%Q
  end.
Proof.
  intro H. apply (active_reviews_of_Forall _ product_id) in H.
  unfold expected_rating. cbv zeta.
  destruct (active_reviews_of product_id rs) as [| r counted];
    [reflexivity |].
  rewrite mean_grade_as_fraction.
  pose proof (sum_grades_bounds _ H) as B.
  assert (Z.pos (Z.to_pos (Z.of_nat (length (r :: counted)))) =
          Z.of_nat (length (r :: counted))) as E.
  { apply Z2Pos.id. cbn [length]. lia. }
  unfold Qle. cbn [Qnum Qden]. rewrite E. lia.
Qed.

End Bounds.

(** X18. Recomputations of two products commute: whichever of
    [update_product_rating a] and [update_product_rating b] runs first,
    the database they leave is the same. *)
Theorem update_product_rating_commute (a b : Z) (db : DB) :
  snd (update_product_rating a (snd (update_product_rating b db))) =
  snd (update_product_rating b (snd (update_product_rating a db))).
Proof.
  rewrite (update_product_rating_run b db), (update_product_rating_run a db).
  cbn [snd]. rewrite !update_product_rating_run.
  cbn [snd with_products products reviews categories product_id_seq
       review_id_seq clock].
  unfold with_products.
  cbn [products reviews categories product_id_seq review_id_seq clock].
  f_equal. unfold update_where. rewrite !map_map. apply map_ext. intro p.
  destruct (p_id p =? b) eqn:Eb, (p_id p =? a) eqn:Ea;
    cbn [product_with_rating p_id]; rewrite ?Ea, ?Eb; try reflexivity.
  apply Z.eqb_eq in Ea, Eb. subst a. subst b. reflexivity.
Qed.

(** X19. [update_product_rating] on an identity that no product row
    carries returns and leaves the database as it was. *)
Theorem update_product_rating_unknown_product (product_id : Z) (db : DB) :
  (forall p, In p (products db) -> p_id p <> product_id) ->
  update_product_rating product_id db = (Returned tt, db).
Proof.
  intro H. rewrite update_product_rating_run. f_equal.
  assert (update_where (fun p => p_id p =? product_id)
            (product_with_rating (expected_rating product_id (reviews db)))
            (products db) = products db) as E.
  { unfold update_where. rewrite <- (map_id (products db)) at 2.
    apply map_ext_in. intros p Hp.
    destruct (p_id p =? product_id) eqn:F; [| reflexivity].
    apply Z.eqb_eq in F. exfalso. exact (H p Hp F). }
  rewrite E. destruct db. reflexivity.
Qed.

Lemma update_product_rating_unknown_product_witness :
  update_product_rating 999 Sample.shop = (Returned tt, Sample.shop).
Proof.
  apply (update_product_rating_unknown_product 999 Sample.shop).
  intros p [<- | [<- | []]]; cbn; discriminate.
Defined.

(** X20. When every stored grade lies between 1 and 5, the rating that
    [update_product_rating] writes is 0.0 for a product without active
    reviews and lies between 1 and 5 otherwise. *)
Theorem update_product_rating_bounds (product_id : Z) (db : DB) :
  grades_in_range db ->
  Forall (fun p =>
            p_id p = product_id ->
            match active_reviews_of product_id (reviews db) with
            | [] => p_rating p = 0%Q
            | _ :: _ => (1 <= p_rating p /\ p_rating p <= 5)%Q
            end)
         (products (snd (update_product_rating product_id db))).
Proof.
  intro H. pose proof (expected_rating_bounds product_id _ H) as B.
  pose proof (update_product_rating_consistent product_id db) as C.
  unfold rating_consistent in C.
  assert (reviews (snd (update_product_rating product_id db)) = reviews db)
    as Hr by (rewrite update_product_rating_run; reflexivity).
  rewrite Hr in C.
  apply Forall_forall. intros p Hp Hid.
  rewrite Forall_forall in C. rewrite (C p Hp Hid). exact B.
Qed.

Lemma sample_grades_in_range : grades_in_range Sample.shop.
Proof.
  unfold grades_in_range. cbn [reviews Sample.shop].
  repeat (apply Forall_cons; [cbn; lia |]). apply Forall_nil.
Defined.

Lemma update_product_rating_bounds_witness :
  grades_in_range Sample.shop /\
  map p_rating (products (snd (update_product_rating 1 Sample.shop))) =
    [(8 # 2)%Q; (5 # 1)%Q] /\
  Forall (fun p => p_id p = 1 -> (1 <= p_rating p /\ p_rating p <= 5)%Q)
         (products (snd (update_product_rating 1 Sample.shop))).
Proof.
  split; [exact sample_grades_in_range |]. split; [reflexivity |].
  exact (update_product_rating_bounds 1 Sample.shop sample_grades_in_range).
Defined.

(** X21. Grades stay in range: when every stored grade lies between 1
    and 5, this is still so after [create_review] and after
    [delete_review], whatever the request and the outcome. *)
Theorem review_writes_keep_grades (review : ReviewCreate) (buyer : User)
    (review_id : Z) (admin : User) (db : DB) :
  grades_in_range db ->
  grades_in_range (snd (create_review review buyer db)) /\
  grades_in_range (snd (delete_review review_id admin db)).
Proof.
  unfold grades_in_range. intro H. split.
  - rewrite create_review_run.
    destruct (first (select_where _ (products db))) as [product |];
      [| exact H].
    destruct ((1 <=? rc_grade review) && (rc_grade review <=? 5)) eqn:G;
      [| exact H].
    cbn [snd]. rewrite update_product_rating_run. unfold add_review.
    cbn [snd with_products reviews].
    apply Forall_app. split; [exact H |].
    apply Forall_cons; [| apply Forall_nil]. cbn [r_grade].
    apply andb_true_iff in G. destruct G as [G1 G2].
    apply Z.leb_le in G1, G2. lia.
  - rewrite delete_review_run.
    destruct (first (select_where _ (reviews db))) as [deleted |];
      [| exact H].
    cbn [snd]. rewrite update_product_rating_run.
    cbn [snd with_products with_reviews reviews].
    unfold update_where. apply Forall_map.
    apply Forall_forall. intros r Hr. rewrite Forall_forall in H.
    destruct (r_id r =? review_id); [cbn [review_with_is_active r_grade] |];
      apply H; exact Hr.
Qed.

Lemma review_writes_keep_grades_witness :
  grades_in_range Sample.shop /\
  grades_in_range
    (snd (create_review (mkReviewCreate 1 None 4) Sample.buyer Sample.shop)) /\
  grades_in_range (snd (delete_review 2 Sample.admin Sample.shop)).
Proof.
  split; [exact sample_grades_in_range |].
  exact (review_writes_keep_grades (mkReviewCreate 1 None 4) Sample.buyer 2
           Sample.admin Sample.shop sample_grades_in_range).
Defined.

Section ConsistencyKept.

(** A recomputation for one product, run after a change of reviews that
    left the reviews counting for every other product as they were,
    keeps the agreement between ratings and reviews. *)
Lemma recompute_keeps_consistency (product_id any_id : Z) (db db0 : DB) :
  products db0 = products db ->
  (any_id <> product_id ->
   active_reviews_of any_id (reviews db0) =
   active_reviews_of any_id (reviews db)) ->
  rating_consistent any_id db ->
  rating_consistent any_id (snd (update_product_rating product_id db0)).
Proof.
  intros Hps Hrs Hcons.
  destruct (Z.eq_dec any_id product_id) as [-> | Hne].
  - apply update_product_rating_consistent.
  - specialize (Hrs Hne). rewrite update_product_rating_run.
    unfold rating_consistent in *.
    cbn [snd with_products products reviews]. rewrite Hps.
    assert (expected_rating any_id (reviews db0) =
            expected_rating any_id (reviews db)) as ->
      by (unfold expected_rating; rewrite Hrs; reflexivity).
    unfold update_where. apply Forall_map.
    apply Forall_forall. intros p Hp. rewrite Forall_forall in Hcons.
    destruct (p_id p =? product_id) eqn:E.
    + cbn [product_with_rating p_id]. intro Hid.
      apply Z.eqb_eq in E. congruence.
    + apply Hcons. exact Hp.
Qed.

End ConsistencyKept.

(** X22. The agreement between ratings and reviews is kept by the review
    handlers: with the identity as primary key of the reviews, a product
    whose rating is the mean over its active reviews is still so after
    [create_review] and after [delete_review], whatever product or review
    the request names and whatever the outcome. *)
Theorem review_writes_keep_ratings (review : ReviewCreate) (buyer : User)
    (review_id : Z) (admin : User) (db : DB) (any_id : Z) :
  primary_key r_id (reviews db) ->
  rating_consistent any_id db ->
  rating_consistent any_id (snd (create_review review buyer db)) /\
  rating_consistent any_id (snd (delete_review review_id admin db)).
Proof.
  intros Hkey Hcons. split.
  - rewrite create_review_run.
    destruct (first (select_where _ (products db))) as [product |] eqn:Hp;
      [| exact Hcons].
    destruct ((1 <=? rc_grade review) && (rc_grade review <=? 5));
      [| exact Hcons].
    cbn [snd]. apply some_active_product in Hp.
    destruct Hp as [_ [Hid _]].
    apply (recompute_keeps_consistency (p_id product) any_id db);
      [reflexivity | | exact Hcons].
    intro Hne. unfold add_review. cbn [snd reviews].
    rewrite active_reviews_of_app. cbn [active_reviews_of r_is_active
                                         r_product_id].
    destruct (Z.eq_dec (rc_product_id review) any_id) as [E | _];
      [congruence |].
    apply app_nil_r.
  - rewrite delete_review_run.
    destruct (first (select_where _ (reviews db))) as [deleted |] eqn:Hr;
      [| exact Hcons].
    cbn [snd]. apply first_select_some in Hr. destruct Hr as [Hin Hr].
    apply review_is_true in Hr. destruct Hr as [Hid _].
    apply (recompute_keeps_consistency (r_product_id deleted) any_id db);
      [reflexivity | | exact Hcons].
    intro Hne. cbn [with_reviews reviews].
    apply active_reviews_of_deactivate_other.
    intros r Hrin Hrid _ Hprod.
    assert (r = deleted) as ->.
    { apply (primary_key_inj r_id (reviews db)); try assumption.
      rewrite Hrid, Hid. reflexivity. }
    congruence.
Qed.

Lemma annex_reviews_key : primary_key r_id (reviews Annex.store).
Proof.
  unfold primary_key. cbn.
  repeat constructor; cbn; intuition discriminate.
Defined.

Lemma review_writes_keep_ratings_witness :
  rating_consistent 1 Annex.store /\
  rating_consistent 1
    (snd (create_review (mkReviewCreate 3 None 5) Sample.buyer Annex.store)) /\
  rating_consistent 1 (snd (delete_review 2 Sample.admin Annex.store)) /\
  map p_rating
    (products
       (snd (create_review (mkReviewCreate 3 None 5) Sample.buyer
               Annex.store))) = [(8 # 2)%Q; (5 # 1)%Q].
Proof.
  split; [exact annex_kettle_consistent |].
  destruct (review_writes_keep_ratings (mkReviewCreate 3 None 5) Sample.buyer
              2 Sample.admin Annex.store 1 annex_reviews_key
              annex_kettle_consistent) as [Hc Hd].
  split; [exact Hc |]. split; [exact Hd |]. reflexivity.
Defined.
